(** * VibeCAD: the Onshape STL importer and its setup script

    A shallow embedding of [src/server.ts] (the MCP tool [import_stl], its
    REST helper [onshapeApiRequest] and the start-up credential check) and
    of the shell script that registers the server in the desktop
    application's JSON configuration file.

    Strings are byte strings: a JavaScript string is represented by its
    UTF-8 encoding.  The code under study tests strings for emptiness and
    concatenates them; it looks inside a string only through the built-ins
    listed in [JS.Builtins], and in the script's [mask_key], which slices
    a key by characters (see [Setup.ascii_key]). *)

From Stdlib Require Import String Ascii List ZArith NArith Lia Bool.
From Stdlib Require Import DecimalString.
Import ListNotations.
Open Scope string_scope.
Open Scope Z_scope.

(** ** JavaScript values and the built-ins the code calls *)

Module JS.

(** A thrown [Error] object; the code only ever reads [err.message]. *)
Record exn : Type := Error { ename : string; message : string }.

(** The values the two programs handle: what [JSON.parse] returns, plus
    [undefined] (result of reading a missing property).  A number carries
    its JavaScript rendering [String(n)]; an array carries, next to its
    elements, the non-index properties assigned to it (arrays are
    objects: [a.k = v] is legal and invisible to [JSON.stringify]). *)
#[warnings="-register-all"]
Inductive jsval : Type :=
| JUndefined
| JNull
| JBool (b : bool)
| JNum (repr : string)
| JStr (s : string)
| JArr (elems : list jsval) (expando : list (string * jsval))
| JObj (props : list (string * jsval)).

(** Results of operations that may throw. *)
Definition result (A : Type) : Type := (A + exn)%type.

Definition ok {A} (a : A) : result A := inl a.
Definition throw {A} (e : exn) : result A := inr e.

Definition rbind {A B} (r : result A) (f : A -> result B) : result B :=
  match r with
  | inl a => f a
  | inr e => inr e
  end.

Notation "'let*' x ':=' r 'in' k" := (rbind r (fun x => k))
  (at level 10, x name, r at level 100, k at level 200).

Definition TypeError (msg : string) : exn := Error "TypeError" msg.

(** Own properties, kept in property order. *)
Fixpoint assoc {V} (k : string) (l : list (string * V)) : option V :=
  match l with
  | [] => None
  | (k', v) :: r => if String.eqb k k' then Some v else assoc k r
  end.

(** [o[k] = v] on the property list: overwrite in place, else append. *)
Fixpoint set_prop {V} (k : string) (v : V) (l : list (string * V))
  : list (string * V) :=
  match l with
  | [] => [(k, v)]
  | (k', v') :: r =>
      if String.eqb k k' then (k', v) :: r else (k', v') :: set_prop k v r
  end.

Definition lookup (k : string) (l : list (string * jsval)) : jsval :=
  match assoc k l with
  | Some v => v
  | None => JUndefined
  end.

Definition type_name (v : jsval) : string :=
  match v with
  | JNull => "null"
  | _ => "undefined"
  end.

(** The member read [v.k], for a name [k] that no prototype defines and
    that is neither an array index nor [length] (the code reads [id],
    [defaultWorkspace] and [mcpServers]). *)
Definition get_member (v : jsval) (k : string) : result jsval :=
  match v with
  | JUndefined | JNull =>
      throw (TypeError ("Cannot read properties of " ++ type_name v
                        ++ " (reading '" ++ k ++ "')"))
  | JObj props => ok (lookup k props)
  | JArr _ extra => ok (lookup k extra)
  | JBool _ | JNum _ | JStr _ => ok JUndefined
  end.

(** The assignment [v.k = x] in sloppy mode, returning the object after
    the assignment: a primitive receiver drops the assignment silently,
    [undefined] and [null] throw. *)
Definition set_member (v : jsval) (k : string) (x : jsval) : result jsval :=
  match v with
  | JUndefined | JNull =>
      throw (TypeError ("Cannot set properties of " ++ type_name v
                        ++ " (setting '" ++ k ++ "')"))
  | JObj props => ok (JObj (set_prop k x props))
  | JArr elems extra => ok (JArr elems (set_prop k x extra))
  | JBool _ | JNum _ | JStr _ => ok v
  end.

(** [ToBoolean]: what [!v] and [v ? a : b] test.  Zero renders as "0"
    (also negative zero); [JSON.parse] yields no NaN. *)
Definition truthy (v : jsval) : bool :=
  match v with
  | JUndefined | JNull => false
  | JBool b => b
  | JNum r => negb (String.eqb r "0")
  | JStr s => negb (String.eqb s "")
  | JArr _ _ | JObj _ => true
  end.

(** [ToString], as applied by a template literal.  An object prints as
    "[object Object]" through [Object.prototype.toString], unless it has
    an own property [toString]: that one is data, not a function, and the
    conversion throws.  An array prints its elements joined by commas,
    [null] and [undefined] elements as the empty string. *)
Fixpoint to_string (v : jsval) : result string :=
  match v with
  | JUndefined => ok "undefined"
  | JNull => ok "null"
  | JBool true => ok "true"
  | JBool false => ok "false"
  | JNum r => ok r
  | JStr s => ok s
  | JArr elems _ =>
      (fix join (l : list jsval) : result string :=
         match l with
         | [] => ok ""
         | x :: r =>
             let* s := match x with
                       | JUndefined | JNull => ok ""
                       | _ => to_string x
                       end in
             match r with
             | [] => ok s
             | _ :: _ => let* t := join r in ok (s ++ "," ++ t)
             end
         end) elems
  | JObj props =>
      match assoc "toString" props with
      | None => ok "[object Object]"
      | Some _ => throw (TypeError "Cannot convert object to primitive value")
      end
  end.

(** The built-ins whose definition is the language's, not the
    repository's.  [JSON_stringify indent v] is
    [JSON.stringify(v, null, indent)] for an object or array [v]. *)
Class Builtins : Type := {
  JSON_parse : string -> result jsval;
  JSON_stringify : option nat -> jsval -> string;
  encodeURIComponent : string -> result string;
}.

(** [String(n)] for a non-negative integer. *)
Definition string_of_N (n : N) : string :=
  NilEmpty.string_of_uint (N.to_uint n).

(** *** [Date.prototype.toISOString] *)

(** The last [w] decimal digits of [n], most significant first
    ([String(n).padStart(w, "0")] when [0 <= n < 10^w]). *)
Fixpoint digits (w : nat) (n : Z) : string :=
  match w with
  | O => ""
  | S w' =>
      digits w' (n / 10) ++ String (ascii_of_N (48 + Z.to_N (n mod 10))%N) ""
  end.

Definition msPerDay : Z := 86400000.

(** Day number since 1970-01-01 to proleptic Gregorian (year, month, day),
    by eras of 400 years starting on 1 March. *)
Definition civil_from_days (day : Z) : Z * Z * Z :=
  let z := day + 719468 in
  let era := z / 146097 in
  let doe := z mod 146097 in
  let yoe := (doe - doe / 1460 + doe / 36524 - doe / 146096) / 365 in
  let doy := doe - (365 * yoe + yoe / 4 - yoe / 100) in
  let mp := (5 * doy + 2) / 153 in
  let d := doy - (153 * mp + 2) / 5 + 1 in
  let m := if mp <? 10 then mp + 3 else mp - 9 in
  let y := yoe + era * 400 + (if m <=? 2 then 1 else 0) in
  (y, m, d).

(** Years 0 to 9999 print with four digits, the others as a sign and six
    digits. *)
Definition year_string (y : Z) : string :=
  if (0 <=? y) && (y <=? 9999) then digits 4 y
  else (if y <? 0 then "-" else "+") ++ digits 6 (Z.abs y).

(** [new Date(t).toISOString()], [t] in milliseconds since the epoch. *)
Definition toISOString (t : Z) : string :=
  let ms := t mod msPerDay in
  let '(y, m, d) := civil_from_days (t / msPerDay) in
  year_string y ++ "-" ++ digits 2 m ++ "-" ++ digits 2 d
  ++ "T" ++ digits 2 (ms / 3600000)
  ++ ":" ++ digits 2 (ms / 60000 mod 60)
  ++ ":" ++ digits 2 (ms / 1000 mod 60)
  ++ "." ++ digits 3 (ms mod 1000) ++ "Z".

(** The time values a [Date] can hold: 100,000,000 days either side of
    the epoch. *)
Definition valid_time (t : Z) : Prop :=
  -8640000000000000 <= t <= 8640000000000000.

(** *** [Buffer.from(s).toString("base64")] *)

Definition base64_alphabet : string :=
  "ABCDEFGHIJKLMNOPQRSTUVWXYZabcdefghijklmnopqrstuvwxyz0123456789+/".

Definition base64_char (n : N) : ascii :=
  match String.get (N.to_nat n) base64_alphabet with
  | Some c => c
  | None => "="%char
  end.

Fixpoint base64 (s : string) : string :=
  (match s with
  | "" => ""
  | String a "" =>
      let x := N_of_ascii a in
      String (base64_char (x / 4))
        (String (base64_char (x mod 4 * 16)) "==")
  | String a (String b "") =>
      let x := N_of_ascii a in
      let y := N_of_ascii b in
      String (base64_char (x / 4))
        (String (base64_char (x mod 4 * 16 + y / 16))
           (String (base64_char (y mod 16 * 4)) "="))
  | String a (String b (String c r)) =>
      let x := N_of_ascii a in
      let y := N_of_ascii b in
      let z := N_of_ascii c in
      String (base64_char (x / 4))
        (String (base64_char (x mod 4 * 16 + y / 16))
           (String (base64_char (y mod 16 * 4 + z / 64))
              (String (base64_char (z mod 64)) (base64 r))))
  end)%N.

(** Substring containment, for statements about message texts. *)
Definition contains (needle hay : string) : Prop :=
  exists pre post, hay = pre ++ needle ++ post.

End JS.

(** ** The server: [src/server.ts] *)

Module Server.
Import JS.

Definition nl : string := String "010"%char "".

(** *** Requests, responses and the outside world *)

(** One part of a multipart form, as [form.append(field, data, options)]
    records it. *)
Record FormPart : Type := {
  field : string;
  data : string;
  part_filename : string;
  part_contentType : string;
}.

Definition FormData : Type := list FormPart.

(** [opts.body] of a [fetch] call. *)
Inductive req_body : Type :=
| NoBody
| Multipart (form : FormData)
| Text (s : string).

(** What [fetch(url, opts)] is called with. *)
Record request : Type := {
  url : string;
  method : string;
  headers : list (string * string);
  body : req_body;
}.

(** A response: its status and what [res.text()] resolves to or rejects
    with. *)
Record response : Type := {
  status : N;
  body_text : result string;
}.

(** node-fetch: [res.ok] is [status >= 200 && status < 300]. *)
Definition res_ok (res : response) : bool :=
  ((200 <=? status res) && (status res <? 300))%N.

(** [fetch] resolves to a response or rejects (transport failure). *)
Definition fetch_result : Type := result response.

Definition exchange : Type := (request * fetch_result)%type.

(** The outside world of one invocation: the clock reading and the
    service, whose answer may depend on everything exchanged so far. *)
Record world : Type := {
  clock : Z;
  service : list exchange -> request -> fetch_result;
}.

(** *** Asynchronous code: a program is a tree of effects *)

Inductive prog (A : Type) : Type :=
| Ret (a : A)
| Throw (e : exn)
| Fetch (r : request) (k : fetch_result -> prog A)
| Now (k : Z -> prog A).

Arguments Ret {A} a.
Arguments Throw {A} e.
Arguments Fetch {A} r k.
Arguments Now {A} k.

Fixpoint bind {A B} (p : prog A) (f : A -> prog B) : prog B :=
  match p with
  | Ret a => f a
  | Throw e => Throw e
  | Fetch r k => Fetch r (fun x => bind (k x) f)
  | Now k => Now (fun t => bind (k t) f)
  end.

(** [try { p } catch (err) { h err }] *)
Fixpoint try_catch {A} (p : prog A) (h : exn -> prog A) : prog A :=
  match p with
  | Ret a => Ret a
  | Throw e => h e
  | Fetch r k => Fetch r (fun x => try_catch (k x) h)
  | Now k => Now (fun t => try_catch (k t) h)
  end.

(** A synchronous computation inside asynchronous code. *)
Definition lift {A} (r : result A) : prog A :=
  match r with
  | inl a => Ret a
  | inr e => Throw e
  end.

Notation "x <- p ;; k" := (bind p (fun x => k))
  (at level 61, p at next level, right associativity).

(** Running a program in a world, from the exchanges made so far: the
    exchanges in the order they were made, and the value returned or the
    exception that escaped. *)
Fixpoint run {A} (w : world) (tr : list exchange) (p : prog A)
  : list exchange * result A :=
  match p with
  | Ret a => (tr, inl a)
  | Throw e => (tr, inr e)
  | Fetch r k =>
      let o := service w tr r in
      run w (tr ++ [(r, o)])%list (k o)
  | Now k => run w tr (k (clock w))
  end.

(** *** Start-up (lines 21-33) *)

Record config : Type := {
  ONSHAPE_API_URL : string;
  authHeader : string;
}.

(** [process.env]: a variable is unset or holds a string. *)
Definition environment : Type := string -> option string.

Inductive startup_result : Type :=
| Exit (code : Z)
| Ready (cfg : config).

(** [x || d] on an environment variable: unset and empty are falsy. *)
Definition or_default (x : option string) (d : string) : string :=
  match x with
  | Some (String c s) => String c s
  | _ => d
  end.

(** [!x] on an environment variable. *)
Definition falsy (x : option string) : bool :=
  match x with
  | Some (String _ _) => false
  | _ => true
  end.

(** The template [`${a}:${b}`] on two environment variables that passed
    the check. *)
Definition env_string (x : option string) : string :=
  match x with
  | Some s => s
  | None => "undefined"
  end.

Definition startup (env : environment) : startup_result :=
  let api_url :=
    or_default (env "ONSHAPE_API_URL") "https://cad.onshape.com/api/v6" in
  let ONSHAPE_ACCESS_KEY := env "ONSHAPE_ACCESS_KEY" in
  let ONSHAPE_SECRET_KEY := env "ONSHAPE_SECRET_KEY" in
  if falsy ONSHAPE_ACCESS_KEY || falsy ONSHAPE_SECRET_KEY then Exit 1
  else
    Ready {| ONSHAPE_API_URL := api_url;
             authHeader :=
               "Basic " ++ base64 (env_string ONSHAPE_ACCESS_KEY ++ ":"
                                   ++ env_string ONSHAPE_SECRET_KEY) |}.

(** *** [onshapeApiRequest] (lines 36-65) *)

(** The optional third argument: absent, a [FormData] or a plain object. *)
Inductive body_arg : Type :=
| NoArg
| FormArg (form : FormData)
| ObjArg (v : jsval).

Section Handler.
Context `{Builtins}.
Variable cfg : config.

Definition onshapeApiRequest (method path : string) (body : body_arg)
  : prog jsval :=
  let url := ONSHAPE_API_URL cfg ++ path in
  let headers :=
    [("Authorization", authHeader cfg); ("Accept", "application/json")] in
  let opts :=
    match body with
    | FormArg form =>
        {| url := url; method := method; headers := headers;
           body := Multipart form |}
    | ObjArg v =>
        {| url := url; method := method;
           headers := (headers ++ [("Content-Type", "application/json")])%list;
           body := Text (JSON_stringify None v) |}
    | NoArg =>
        {| url := url; method := method; headers := headers;
           body := NoBody |}
    end in
  Fetch opts (fun fetched =>
    res <- lift fetched ;;
    if negb (res_ok res) then
      t <- lift (body_text res) ;;
      Throw (Error "Error"
               ("Onshape API Error " ++ string_of_N (status res) ++ ": " ++ t))
    else
      txt <- lift (body_text res) ;;
      match txt with
      | "" => Ret (JObj [])
      | _ => lift (JSON_parse txt)
      end).

(** *** The tool [import_stl] (lines 94-177) *)

Record params : Type := {
  stl : string;
  documentName : option string;
  filename : option string;
  createNewPartStudio : option bool;
}.

Record ContentItem : Type := {
  type : string;
  text : string;
}.

(** The handler's return value; [isError] is absent on success. *)
Record CallToolResult : Type := {
  content : list ContentItem;
  isError : option bool;
}.

(** [`${doc.id}`] *)
Definition doc_id (doc : jsval) : result string :=
  let* id := get_member doc "id" in
  to_string id.

(** [`${doc.defaultWorkspace.id}`] *)
Definition workspace_id (doc : jsval) : result string :=
  let* ws := get_member doc "defaultWorkspace" in
  let* id := get_member ws "id" in
  to_string id.

Definition import_stl (params : params) : prog CallToolResult :=
  try_catch
    (docName <- match documentName params with
                | Some name => Ret name
                | None => Now (fun t => Ret ("AI Model " ++ toISOString t))
                end ;;
     let fileName :=
       match filename params with
       | Some name => name
       | None => "model.stl"
       end in
     (* 1: create a private document *)
     doc <- onshapeApiRequest "POST" "/documents"
              (ObjArg (JObj [("name", JStr docName);
                             ("public", JBool false)])) ;;
     (* 2: upload the STL as a blob element *)
     let form :=
       [ {| field := "file"; data := stl params;
            part_filename := fileName;
            part_contentType := "application/octet-stream" |} ] in
     upload_path <- lift (let* d := doc_id doc in
                          let* w := workspace_id doc in
                          let* f := encodeURIComponent fileName in
                          ok ("/blobelements/d/" ++ d ++ "/w/" ++ w
                              ++ "?encodedFilename=" ++ f)) ;;
     blob <- onshapeApiRequest "POST" upload_path (FormArg form) ;;
     (* 3: import the blob into the part studio *)
     import_path <- lift (let* d := doc_id doc in
                          let* w := workspace_id doc in
                          ok ("/partstudios/d/" ++ d ++ "/w/" ++ w
                              ++ "/import")) ;;
     blob_id <- lift (get_member blob "id") ;;
     _ <- onshapeApiRequest "POST" import_path
            (ObjArg (JObj [("format", JStr "STL");
                           ("blobElementId", blob_id);
                           ("importIntoPartStudio", JBool true);
                           ("createNewPartStudio",
                            JBool match createNewPartStudio params with
                                  | Some b => b
                                  | None => false
                                  end)])) ;;
     message_text <- lift (let* d := doc_id doc in
                           let* d' := doc_id doc in
                           ok ("🎉 Imported STL into Onshape!" ++ nl
                               ++ "Document: " ++ docName ++ nl
                               ++ "ID: " ++ d ++ nl
                               ++ "View: https://cad.onshape.com/documents/"
                               ++ d')) ;;
     Ret {| content := [ {| type := "text"; text := message_text |} ];
            isError := None |})
    (fun err =>
       Ret {| content := [ {| type := "text";
                              text := "❌ Error importing STL: "
                                      ++ message err |} ];
              isError := Some true |}).

(** *** The input schema and the tool call *)

(** [z.string().optional()] on a property that may be missing. *)
Definition optional_string (v : option jsval) : option (option string) :=
  match v with
  | None | Some JUndefined => Some None
  | Some (JStr s) => Some (Some s)
  | Some _ => None
  end.

(** [z.boolean().optional()] *)
Definition optional_boolean (v : option jsval) : option (option bool) :=
  match v with
  | None | Some JUndefined => Some None
  | Some (JBool b) => Some (Some b)
  | Some _ => None
  end.

(** [z.string().min(1)]: a string of length at least one. *)
Definition string_min_1 (v : option jsval) : option string :=
  match v with
  | Some (JStr (String c s)) => Some (String c s)
  | _ => None
  end.

(** The schema of lines 96-113 applied to the call's [arguments]:
    [None] when the arguments do not parse. *)
Definition validate (args : jsval) : option params :=
  match args with
  | JObj props =>
      match string_min_1 (assoc "stl" props),
            optional_string (assoc "documentName" props),
            optional_string (assoc "filename" props),
            optional_boolean (assoc "createNewPartStudio" props) with
      | Some s, Some d, Some f, Some c =>
          Some {| stl := s; documentName := d; filename := f;
                  createNewPartStudio := c |}
      | _, _, _, _ => None
      end
  | _ => None
  end.

(** What the caller of the tool gets back: the protocol layer's
    invalid-arguments error, or the handler's result. *)
Inductive tool_response : Type :=
| InvalidParams
| Result (r : CallToolResult).

(** [server.tool(name, schema, handler)]: the protocol layer parses the
    arguments with the schema and calls the handler on success only. *)
Definition call_tool (args : jsval) : prog tool_response :=
  match validate args with
  | None => Ret InvalidParams
  | Some params => r <- import_stl params ;; Ret (Result r)
  end.

End Handler.

(** An error response: the protocol error or a result flagged
    [isError: true]. *)
Definition is_error (r : tool_response) : Prop :=
  match r with
  | InvalidParams => True
  | Result r => isError r = Some true
  end.

(** *** The process: start-up, then one run of the tool per invocation *)

Inductive process_outcome : Type :=
| Exited (code : Z)
| Served (runs : list (list exchange * result tool_response)).

Definition main `{Builtins} (env : environment)
    (invocations : list (world * jsval)) : process_outcome :=
  match startup env with
  | Exit code => Exited code
  | Ready cfg =>
      Served (map (fun i => run (fst i) [] (call_tool cfg (snd i)))
                  invocations)
  end.

End Server.

(** ** The setup script

    The script as a program over the file system: what it reads from its
    surroundings is an input, what it prints is left out.  A command
    fails where the logic of the script can make it fail (a build that
    fails, a file to copy that is missing, a configuration that does not
    parse, the end of the input at a prompt); a machine without [node] or
    a disk that cannot be written is not modelled. *)

Module Setup.
Import JS.

Definition nl : string := String "010"%char "".
Definition dq : string := String "034"%char "".

(** *** The file system and the script's view of it *)

Record fsys : Type := {
  files : string -> option string;
  dirs : string -> bool;
}.

(** The operations the script performs on the file system, as logged in
    the order they happen. *)
Inductive fs_op : Type :=
| Mkdir (dir : string)
| WriteFile (path content : string)
| CopyFile (src dst : string).

Definition write_to (path content : string) (fs : fsys) : fsys :=
  {| files := fun p => if String.eqb p path then Some content else files fs p;
     dirs := dirs fs |}.

Definition make_dir (dir : string) (fs : fsys) : fsys :=
  {| files := files fs;
     dirs := fun d => if String.eqb d dir then true else dirs fs d |}.

Record state : Type := {
  disk : fsys;
  log : list fs_op;
}.

(** A step of the script continues with a value, exits the script with a
    status, or leaves the model (see [single_quoted]). *)
Inductive step (A : Type) : Type :=
| Continue (a : A)
| Exits (code : Z)
| Unmodelled.

Arguments Continue {A} a.
Arguments Exits {A} code.
Arguments Unmodelled {A}.

Definition script (A : Type) : Type := state -> step A * state.

Definition ret {A} (a : A) : script A := fun st => (Continue a, st).

Definition exit {A} (code : Z) : script A := fun st => (Exits code, st).

Definition unmodelled {A} : script A := fun st => (Unmodelled, st).

Definition sbind {A B} (m : script A) (f : A -> script B) : script B :=
  fun st =>
    match m st with
    | (Continue a, st') => f a st'
    | (Exits code, st') => (Exits code, st')
    | (Unmodelled, st') => (Unmodelled, st')
    end.

Notation "x <- m ;; k" := (sbind m (fun x => k))
  (at level 61, m at next level, right associativity).
Notation "m ;;; k" := (sbind m (fun _ => k))
  (at level 61, right associativity).

Definition is_dir (dir : string) : script bool :=
  fun st => (Continue (dirs (disk st) dir), st).

Definition read_file (path : string) : script (option string) :=
  fun st => (Continue (files (disk st) path), st).

Definition mkdir_p (dir : string) : script unit :=
  fun st => (Continue tt,
             {| disk := make_dir dir (disk st);
                log := (log st ++ [Mkdir dir])%list |}).

Definition write_file (path content : string) : script unit :=
  fun st => (Continue tt,
             {| disk := write_to path content (disk st);
                log := (log st ++ [WriteFile path content])%list |}).

(** [cp src dst]; a missing source makes [cp] fail, and [set -e] ends the
    script with [cp]'s status. *)
Definition cp (src dst : string) : script unit :=
  fun st =>
    match files (disk st) src with
    | Some content =>
        (Continue tt,
         {| disk := write_to dst content (disk st);
            log := (log st ++ [CopyFile src dst])%list |})
    | None => (Exits 1, st)
    end.

(** *** What the script reads from its surroundings *)

Record inputs : Type := {
  build_status : Z;          (* exit status of [npm run build] *)
  build_result : fsys -> fsys;   (* the file system as the build leaves it *)
  pwd : string;              (* output of [pwd] *)
  HOME : string;
  ONSHAPE_ACCESS_KEY : string;   (* empty when unset *)
  ONSHAPE_SECRET_KEY : string;
  input_access_key : option string;  (* what the two [read] deliver: the *)
  input_secret_key : option string;  (* value read, or the end of the input *)
  backup_stamp : string;     (* [date +%Y%m%d_%H%M%S] when [cp] runs *)
}.

(** A shell variable spliced between single quotes into the text passed
    to [node -e] denotes its own value as long as it holds no quote,
    backslash or line break; any other value changes the program that
    node runs, which this model does not follow. *)
Definition plain_char (c : ascii) : bool :=
  negb (Ascii.eqb c "'"%char || Ascii.eqb c "\"%char
        || Ascii.eqb c "010"%char || Ascii.eqb c "013"%char).

Definition single_quoted (raw : string) : option string :=
  if forallb plain_char (list_ascii_of_string raw) then Some raw else None.

Definition spliced (raw : string) : script string :=
  match single_quoted raw with
  | Some s => ret s
  | None => unmodelled
  end.


Section Script.
Context `{Builtins}.

(** *** The two node programs *)

(** Lines 53-68, on the text read from the file: the text to write back,
    if any; an exception makes node exit with status 1. *)
Definition check_config (content : string) : result (option string) :=
  let* config := JSON_parse content in
  let* servers := get_member config "mcpServers" in
  if negb (truthy servers) then
    let* config := set_member config "mcpServers" (JObj []) in
    ok (Some (JSON_stringify (Some 2%nat) config))
  else ok None.

(** The entry of lines 148-156. *)
Definition server_entry (project access secret : string) : jsval :=
  JObj [("command", JStr "node");
        ("args", JArr [JStr (project ++ "/dist/server.js")] []);
        ("env", JObj [("ONSHAPE_ACCESS_KEY", JStr access);
                      ("ONSHAPE_SECRET_KEY", JStr secret);
                      ("ONSHAPE_API_URL",
                       JStr "https://cad.onshape.com/api/v11")])].

(** Lines 142-156 on the parsed configuration.  [config.mcpServers] is a
    reference: the entry assigned through it is seen through [config],
    which the last line writes out. *)
Definition add_server (entry config : jsval) : result jsval :=
  let* servers := get_member config "mcpServers" in
  let* config :=
    if negb (truthy servers) then set_member config "mcpServers" (JObj [])
    else ok config in
  let* servers := get_member config "mcpServers" in
  let* servers := set_member servers "onshape_mcp" entry in
  set_member config "mcpServers" servers.

(** Lines 134-166, on the text read from the file: the text written.
    [project], [access] and [secret] are the values of the three string
    literals of the program.  The script builds these literals by splicing
    shell variables between single quotes, so this is the program the
    script runs only for variables that denote themselves there (see
    [single_quoted]): [step7] checks it, and the statements about
    [update_config] assume it. *)
Definition update_config (project access secret content : string)
  : result string :=
  let* config := JSON_parse content in
  let* config := add_server (server_entry project access secret) config in
  ok (JSON_stringify (Some 2%nat) config).

(** *** The script *)

Definition PROJECT_DIRECTORY (i : inputs) : string := pwd i.

Definition CLAUDE_CONFIG_DIR (i : inputs) : string :=
  HOME i ++ "/Library/Application Support/Claude".

Definition CLAUDE_CONFIG_FILE (i : inputs) : string :=
  CLAUDE_CONFIG_DIR i ++ "/claude_desktop_config.json".

(** The here-document of lines 42-44. *)
Definition empty_config : string :=
  "{" ++ nl ++ "  " ++ dq ++ "mcpServers" ++ dq ++ ": {}" ++ nl ++ "}" ++ nl.

Definition non_empty (s : string) : bool :=
  match s with
  | "" => false
  | String _ _ => true
  end.

(** [npm run build] (line 11): whatever the build writes (the compiled
    server under [dist/], for one) is on the disk afterwards; its writes
    are not operations of the script and are not logged. *)
Definition npm_run_build (i : inputs) : script Z :=
  fun st => (Continue (build_status i),
             {| disk := build_result i (disk st); log := log st |}).

(** Step 1: build; with [set -e] a failing build ends the script with
    the status of the build. *)
Definition step1 (i : inputs) : script unit :=
  status <- npm_run_build i ;;
  if status =? 0 then ret tt else exit status.

(** Step 4: create the configuration directory if it does not exist. *)
Definition step4 (i : inputs) : script unit :=
  present <- is_dir (CLAUDE_CONFIG_DIR i) ;;
  if present then ret tt else mkdir_p (CLAUDE_CONFIG_DIR i).

(** Step 5: create the configuration file, or check the existing one. *)
Definition step5 (i : inputs) : script unit :=
  existing <- read_file (CLAUDE_CONFIG_FILE i) ;;
  match existing with
  | None => write_file (CLAUDE_CONFIG_FILE i) empty_config
  | Some _ =>
      path <- spliced (CLAUDE_CONFIG_FILE i) ;;
      content <- read_file path ;;
      match content with
      | None => exit 1
      | Some content =>
          match check_config content with
          | inl (Some new_content) => write_file path new_content
          | inl None => ret tt
          | inr _ => exit 1
          end
      end
  end.

(** [echo text]: the text and a line feed on the standard output. *)
Definition echo (text : string) : string := text ++ nl.

(** [mask_key] (lines 85-94): what the function prints of a key.  Bash
    counts and slices characters ([${#key}], [${key:0:4}], [${key: -4}]);
    a string here is a string of bytes, and the two agree, in every
    locale, on a key of ASCII characters (see [ascii_key]). *)
Definition mask_key (key : string) : string :=
  if non_empty key && (8 <? String.length key)%nat then
    echo (String.substring 0 4 key ++ "..."
          ++ String.substring (String.length key - 4) 4 key)
  else if non_empty key then echo (String.substring 0 2 key ++ "...")
  else echo "".

(** A key whose bytes are ASCII characters (codes 1 to 127). *)
Definition ascii_key (key : string) : bool :=
  forallb (fun c => (0 <? nat_of_ascii c)%nat && (nat_of_ascii c <? 128)%nat)
          (list_ascii_of_string key).

(** [$(command)]: the output of the command without its trailing line
    feeds. *)
Fixpoint command_substitution (out : string) : string :=
  match out with
  | "" => ""
  | String c rest =>
      match command_substitution rest with
      | "" => if Ascii.eqb c "010"%char then "" else String c ""
      | kept => String c kept
      end
  end.

Fixpoint ends_in_line_feed (s : string) : bool :=
  match s with
  | "" => false
  | String c "" => Ascii.eqb c "010"%char
  | String _ rest => ends_in_line_feed rest
  end.

(** Lines 97-98: what the prompts of step 6 show of the current keys. *)
Definition current_access_display (i : inputs) : string :=
  command_substitution (mask_key (ONSHAPE_ACCESS_KEY i)).

Definition current_secret_display (i : inputs) : string :=
  command_substitution (mask_key (ONSHAPE_SECRET_KEY i)).

(** [read -p prompt name] (lines 100-101) sets the variable to what it
    read; at the end of the input it fails, and [set -e] ends the script
    with its status 1. *)
Definition read_p (line : option string) : script string :=
  match line with
  | Some value => ret value
  | None => exit 1
  end.

(** The variable a [read] has set. *)
Definition typed (line : option string) : string :=
  match line with
  | Some value => value
  | None => ""
  end.

(** Step 6: the keys typed at the prompt, else those of the environment;
    both are required. *)
Definition FINAL_ACCESS_KEY (i : inputs) : string :=
  if non_empty (typed (input_access_key i)) then typed (input_access_key i)
  else ONSHAPE_ACCESS_KEY i.

Definition FINAL_SECRET_KEY (i : inputs) : string :=
  if non_empty (typed (input_secret_key i)) then typed (input_secret_key i)
  else ONSHAPE_SECRET_KEY i.

Definition step6 (i : inputs) : script unit :=
  read_p (input_access_key i) ;;;
  read_p (input_secret_key i) ;;;
  if non_empty (FINAL_ACCESS_KEY i) && non_empty (FINAL_SECRET_KEY i)
  then ret tt
  else exit 1.

(** Step 7: back the file up, then update it. *)
Definition backup_of (i : inputs) : string :=
  CLAUDE_CONFIG_FILE i ++ ".backup." ++ backup_stamp i.

Definition step7 (i : inputs) : script unit :=
  cp (CLAUDE_CONFIG_FILE i) (backup_of i) ;;;
  path <- spliced (CLAUDE_CONFIG_FILE i) ;;
  project <- spliced (PROJECT_DIRECTORY i) ;;
  access <- spliced (FINAL_ACCESS_KEY i) ;;
  secret <- spliced (FINAL_SECRET_KEY i) ;;
  content <- read_file path ;;
  match content with
  | None => exit 1
  | Some content =>
      match update_config project access secret content with
      | inl new_content => write_file path new_content
      | inr _ => exit 1
      end
  end.

Definition setup (i : inputs) : script unit :=
  step1 i ;;; step4 i ;;; step5 i ;;; step6 i ;;; step7 i.

(** Running the script on a file system. *)
Definition run_setup (i : inputs) (fs : fsys) : step unit * state :=
  setup i {| disk := fs; log := [] |}.

End Script.

End Setup.

(** ** A reference implementation of the built-ins

    An executable instance of [JS.Builtins] for ASCII and UTF-8 texts,
    used to run the two programs on concrete inputs.  The parser covers
    the JSON texts without [\u] escapes whose numbers are integers of at
    most fifteen digits and whose keys are not array indices (which
    JavaScript would move first); it rejects the other numbers and
    escapes, and the messages of its errors are its own.  The scenarios
    stay within these texts; the theorems hold for every instance. *)

Module Reference.
Import JS.

Definition nl : string := String "010"%char "".
Definition dq : ascii := "034"%char.
Definition backslash : ascii := "\"%char.

Definition hex_digit (n : N) : ascii :=
  match String.get (N.to_nat n) "0123456789ABCDEF" with
  | Some c => c
  | None => "0"%char
  end.

Definition lower_hex_digit (n : N) : ascii :=
  match String.get (N.to_nat n) "0123456789abcdef" with
  | Some c => c
  | None => "0"%char
  end.

Definition in_range (lo hi c : ascii) : bool :=
  ((N_of_ascii lo <=? N_of_ascii c) && (N_of_ascii c <=? N_of_ascii hi))%N.

Definition is_digit (c : ascii) : bool := in_range "0" "9" c.

(** *** [encodeURIComponent] *)

Definition unreserved (c : ascii) : bool :=
  in_range "a" "z" c || in_range "A" "Z" c || is_digit c
  || existsb (Ascii.eqb c) (list_ascii_of_string "-_.!~*'()").

Fixpoint percent_encode (s : string) : string :=
  match s with
  | "" => ""
  | String c r =>
      if unreserved c then String c (percent_encode r)
      else
        let n := N_of_ascii c in
        String "%" (String (hex_digit (n / 16))
                      (String (hex_digit (n mod 16)) (percent_encode r)))
  end%N.

(** *** [JSON.stringify] *)

Fixpoint quote_body (s : string) : string :=
  match s with
  | "" => ""
  | String c r =>
      let n := N_of_ascii c in
      (if Ascii.eqb c dq then String backslash (String dq "")
       else if Ascii.eqb c backslash then String backslash (String backslash "")
       else if (n =? 8)%N then String backslash "b"
       else if (n =? 9)%N then String backslash "t"
       else if (n =? 10)%N then String backslash "n"
       else if (n =? 12)%N then String backslash "f"
       else if (n =? 13)%N then String backslash "r"
       else if (n <? 32)%N then
         String backslash
           (String "u" (String "0" (String "0"
              (String (lower_hex_digit (n / 16))
                 (String (lower_hex_digit (n mod 16)) "")))))
       else String c "") ++ quote_body r
  end%N.

Definition quote (s : string) : string :=
  String dq (quote_body s ++ String dq "").

Fixpoint join (sep : string) (l : list string) : string :=
  match l with
  | [] => ""
  | [x] => x
  | x :: r => x ++ sep ++ join sep r
  end.

(** [gap] is the indentation unit, [cur] the indentation of the value
    being printed. *)
Fixpoint stringify (gap cur : string) (v : jsval) : string :=
  let inner := cur ++ gap in
  let wrap (opening closing : string) (items : list string) :=
    match items, gap with
    | [], _ => opening ++ closing
    | _, "" => opening ++ join "," items ++ closing
    | _, _ =>
        opening ++ nl ++ inner ++ join ("," ++ nl ++ inner) items
        ++ nl ++ cur ++ closing
    end in
  match v with
  | JUndefined | JNull => "null"
  | JBool true => "true"
  | JBool false => "false"
  | JNum r => r
  | JStr s => quote s
  | JArr elems _ =>
      wrap "[" "]"
        ((fix items (l : list jsval) : list string :=
            match l with
            | [] => []
            | x :: r => stringify gap inner x :: items r
            end) elems)
  | JObj props =>
      wrap "{" "}"
        ((fix items (l : list (string * jsval)) : list string :=
            match l with
            | [] => []
            | (_, JUndefined) :: r => items r
            | (k, x) :: r =>
                (quote k ++ (match gap with "" => ":" | _ => ": " end)
                 ++ stringify gap inner x) :: items r
            end) props)
  end.

Fixpoint spaces (n : nat) : string :=
  match n with
  | O => ""
  | S n' => String " " (spaces n')
  end.

Definition reference_stringify (indent : option nat) (v : jsval) : string :=
  match indent with
  | None => stringify "" "" v
  | Some n => stringify (spaces (Nat.min n 10)) "" v
  end.

(** *** [JSON.parse] *)

Definition is_ws (c : ascii) : bool :=
  existsb (Ascii.eqb c) [" "%char; "009"%char; "010"%char; "013"%char].

Fixpoint skip_ws (s : string) : string :=
  match s with
  | String c r => if is_ws c then skip_ws r else s
  | "" => ""
  end.

(** The characters after an opening quote: the string denoted and the
    text after the closing quote. *)
Fixpoint parse_chars (s : string) : option (string * string) :=
  match s with
  | "" => None
  | String c r =>
      if Ascii.eqb c dq then Some ("", r)
      else if Ascii.eqb c backslash then
        match r with
        | String e r' =>
            let unescaped :=
              if Ascii.eqb e dq then Some dq
              else if Ascii.eqb e backslash then Some backslash
              else if Ascii.eqb e "/" then Some "/"%char
              else if Ascii.eqb e "b" then Some "008"%char
              else if Ascii.eqb e "f" then Some "012"%char
              else if Ascii.eqb e "n" then Some "010"%char
              else if Ascii.eqb e "r" then Some "013"%char
              else if Ascii.eqb e "t" then Some "009"%char
              else None in
            match unescaped, parse_chars r' with
            | Some x, Some (str, rest) => Some (String x str, rest)
            | _, _ => None
            end
        | "" => None
        end
      else if (N_of_ascii c <? 32)%N then None
      else
        match parse_chars r with
        | Some (str, rest) => Some (String c str, rest)
        | None => None
        end
  end.

Fixpoint take_digits (s : string) : string * string :=
  match s with
  | String c r =>
      if is_digit c then let (d, rest) := take_digits r in (String c d, rest)
      else ("", s)
  | "" => ("", "")
  end.

(** An integer literal (an optional minus sign, then zero or a digit
    string that does not start with zero) of at most fifteen digits, not
    followed by a fraction or an exponent. *)
Definition parse_int (negative : bool) (s : string)
  : option (jsval * string) :=
  let (d, rest) := take_digits s in
  let well_formed :=
    match d with
    | "" => false
    | String "0" (String _ _) => false
    | _ => (String.length d <=? 15)%nat
    end in
  let ends :=
    match rest with
    | String c _ => negb (existsb (Ascii.eqb c) ["."%char; "e"%char; "E"%char])
    | "" => true
    end in
  if well_formed && ends then
    Some (JNum (if negative && negb (String.eqb d "0") then "-" ++ d else d),
          rest)
  else None.

Definition expect (word : string) (v : jsval) (s : string)
  : option (jsval * string) :=
  if String.prefix word s then
    Some (v, String.substring (String.length word)
               (String.length s - String.length word) s)
  else None.

Fixpoint parse_value (fuel : nat) (s : string) : option (jsval * string) :=
  match fuel with
  | O => None
  | S fuel =>
      match skip_ws s with
      | String c r =>
          if Ascii.eqb c "{" then
            match skip_ws r with
            | String "}" rest => Some (JObj [], rest)
            | _ =>
                match parse_members fuel r [] with
                | Some (props, rest) => Some (JObj props, rest)
                | None => None
                end
            end
          else if Ascii.eqb c "[" then
            match skip_ws r with
            | String "]" rest => Some (JArr [] [], rest)
            | _ =>
                match parse_elements fuel r with
                | Some (elems, rest) => Some (JArr elems [], rest)
                | None => None
                end
            end
          else if Ascii.eqb c dq then
            match parse_chars r with
            | Some (str, rest) => Some (JStr str, rest)
            | None => None
            end
          else if Ascii.eqb c "-" then parse_int true r
          else if is_digit c then parse_int false (String c r)
          else if Ascii.eqb c "t" then expect "true" (JBool true) (String c r)
          else if Ascii.eqb c "f" then expect "false" (JBool false) (String c r)
          else if Ascii.eqb c "n" then expect "null" JNull (String c r)
          else None
      | "" => None
      end
  end

(** The elements of an array, up to and including the closing bracket. *)
with parse_elements (fuel : nat) (s : string)
  : option (list jsval * string) :=
  match fuel with
  | O => None
  | S fuel =>
      match parse_value fuel s with
      | Some (v, rest) =>
          match skip_ws rest with
          | String "," rest' =>
              match parse_elements fuel rest' with
              | Some (vs, rest'') => Some (v :: vs, rest'')
              | None => None
              end
          | String "]" rest' => Some ([v], rest')
          | _ => None
          end
      | None => None
      end
  end

(** The members of an object, up to and including the closing brace; a
    repeated key keeps its first position and takes the last value. *)
with parse_members (fuel : nat) (s : string) (acc : list (string * jsval))
  : option (list (string * jsval) * string) :=
  match fuel with
  | O => None
  | S fuel =>
      match skip_ws s with
      | String c r =>
          if Ascii.eqb c dq then
            match parse_chars r with
            | Some (key, rest) =>
                match skip_ws rest with
                | String ":" rest' =>
                    match parse_value fuel rest' with
                    | Some (v, rest'') =>
                        let acc := set_prop key v acc in
                        match skip_ws rest'' with
                        | String "," more => parse_members fuel more acc
                        | String "}" after => Some (acc, after)
                        | _ => None
                        end
                    | None => None
                    end
                | _ => None
                end
            | None => None
            end
          else None
      | "" => None
      end
  end.

Definition SyntaxError (msg : string) : exn := Error "SyntaxError" msg.

Definition reference_parse (s : string) : result jsval :=
  match parse_value (2 * String.length s + 2) s with
  | Some (v, rest) =>
      match skip_ws rest with
      | "" => ok v
      | _ => throw (SyntaxError "Unexpected non-whitespace character after JSON")
      end
  | None => throw (SyntaxError "Unexpected token in JSON")
  end.

#[export] Instance reference : Builtins := {|
  JSON_parse := reference_parse;
  JSON_stringify := reference_stringify;
  encodeURIComponent := fun s => ok (percent_encode s);
|}.

End Reference.

(** ** The vocabulary of the statements *)

Module Calls.
Import JS Server.

Section Calls.
Context `{Builtins}.
Variable cfg : config.

Definition auth_headers : list (string * string) :=
  [("Authorization", authHeader cfg); ("Accept", "application/json")].

Definition json_headers : list (string * string) :=
  (auth_headers ++ [("Content-Type", "application/json")])%list.

(** The create-document call for a document named [name]. *)
Definition create_request (name : string) : request :=
  {| url := ONSHAPE_API_URL cfg ++ "/documents";
     method := "POST";
     headers := json_headers;
     body := Text (JSON_stringify None
                     (JObj [("name", JStr name); ("public", JBool false)])) |}.

(** The upload of [content] under the name [fileName] into workspace [w]
    of document [d]; [encoded] is the file name as it appears in the
    query string. *)
Definition upload_request (d w encoded fileName content : string) : request :=
  {| url := ONSHAPE_API_URL cfg ++ "/blobelements/d/" ++ d ++ "/w/" ++ w
            ++ "?encodedFilename=" ++ encoded;
     method := "POST";
     headers := auth_headers;
     body := Multipart
               [ {| field := "file"; data := content;
                    part_filename := fileName;
                    part_contentType := "application/octet-stream" |} ] |}.

(** The import of blob [blob_id] into workspace [w] of document [d]. *)
Definition import_request (d w : string) (blob_id : jsval) (fresh : bool)
  : request :=
  {| url := ONSHAPE_API_URL cfg ++ "/partstudios/d/" ++ d ++ "/w/" ++ w
            ++ "/import";
     method := "POST";
     headers := json_headers;
     body := Text (JSON_stringify None
                     (JObj [("format", JStr "STL");
                            ("blobElementId", blob_id);
                            ("importIntoPartStudio", JBool true);
                            ("createNewPartStudio", JBool fresh)])) |}.

(** The options [onshapeApiRequest] passes to [fetch]. *)
Definition fetch_opts (method path : string) (arg : body_arg) : request :=
  {| url := ONSHAPE_API_URL cfg ++ path;
     method := method;
     headers := match arg with
                | ObjArg _ => json_headers
                | _ => auth_headers
                end;
     body := match arg with
             | NoArg => NoBody
             | FormArg form => Multipart form
             | ObjArg v => Text (JSON_stringify None v)
             end |}.

End Calls.

Section Outcomes.
Context `{Builtins}.

(** What [onshapeApiRequest] makes of the outcome of its [fetch]. *)
Definition decode (o : fetch_result) : result jsval :=
  let* res := o in
  if negb (res_ok res) then
    let* t := body_text res in
    throw (Error "Error"
             ("Onshape API Error " ++ string_of_N (status res) ++ ": " ++ t))
  else
    let* txt := body_text res in
    match txt with
    | "" => ok (JObj [])
    | _ => JSON_parse txt
    end.

(** A call succeeds when the response has a success status and a body
    that can be read and is empty or parses as JSON; [v] is then the
    value the call yields. *)
Definition yields (o : fetch_result) (v : jsval) : Prop :=
  exists res txt,
    o = inl res /\ res_ok res = true /\ body_text res = inl txt /\
    (match txt with
     | "" => v = JObj []
     | _ => JSON_parse txt = inl v
     end).

Definition succeeds (o : fetch_result) : Prop := exists v, yields o v.

(** A call fails with a non-success status [code] and response body [t]. *)
Definition fails_with (o : fetch_result) (code : N) (t : string) : Prop :=
  exists res,
    o = inl res /\ res_ok res = false /\ status res = code /\
    body_text res = inl t.

End Outcomes.

(** The two shapes of result the handler builds. *)
Definition confirmation (docName d : string) : CallToolResult :=
  {| content :=
       [ {| type := "text";
            text := "🎉 Imported STL into Onshape!" ++ Server.nl
                    ++ "Document: " ++ docName ++ Server.nl
                    ++ "ID: " ++ d ++ Server.nl
                    ++ "View: https://cad.onshape.com/documents/" ++ d |} ];
     isError := None |}.

Definition failure (e : exn) : CallToolResult :=
  {| content := [ {| type := "text";
                     text := "❌ Error importing STL: " ++ message e |} ];
     isError := Some true |}.

Definition document_name (w : world) (p : params) : string :=
  match documentName p with
  | Some name => name
  | None => "AI Model " ++ toISOString (clock w)
  end.

Definition file_name (p : params) : string :=
  match filename p with
  | Some name => name
  | None => "model.stl"
  end.

Definition fresh_studio (p : params) : bool :=
  match createNewPartStudio p with
  | Some b => b
  | None => false
  end.

Section Pipeline.
Context `{Builtins}.
Variable cfg : config.
Variable w : world.
Variable p : params.

(** The identifiers the upload needs: document, workspace, and the
    encoded file name. *)
Definition upload_target (doc : jsval) : result (string * string * string) :=
  let* d := doc_id doc in
  let* ws := workspace_id doc in
  let* f := encodeURIComponent (file_name p) in
  ok (d, ws, f).

(** The handler as an ordered pipeline with exit on the first failure:
    the exchanges made and the result returned. *)
Definition pipeline : list exchange * CallToolResult :=
  let r1 := create_request cfg (document_name w p) in
  let o1 := service w [] r1 in
  let t1 := [(r1, o1)] in
  match decode o1 with
  | inr e => (t1, failure e)
  | inl doc =>
      match upload_target doc with
      | inr e => (t1, failure e)
      | inl (d, ws, f) =>
          let r2 := upload_request cfg d ws f (file_name p) (stl p) in
          let o2 := service w t1 r2 in
          let t2 := [(r1, o1); (r2, o2)] in
          match decode o2 with
          | inr e => (t2, failure e)
          | inl blob =>
              match get_member blob "id" with
              | inr e => (t2, failure e)
              | inl blob_id =>
                  let r3 := import_request cfg d ws blob_id (fresh_studio p) in
                  let o3 := service w t2 r3 in
                  let t3 := [(r1, o1); (r2, o2); (r3, o3)] in
                  match decode o3 with
                  | inr e => (t3, failure e)
                  | inl _ => (t3, confirmation (document_name w p) d)
                  end
              end
          end
      end
  end.

End Pipeline.

(** An environment variable that is unset or empty. *)
Definition missing (x : option string) : Prop := x = None \/ x = Some "".

(** The text content of a result. *)
Definition text_of (r : CallToolResult) : option string :=
  match content r with
  | [item] => if String.eqb (type item) "text" then Some (text item) else None
  | _ => None
  end.

End Calls.

(** ** Scenarios *)

Module Scenario.
Import JS Server Reference.

Definition cfg : config :=
  {| ONSHAPE_API_URL := "https://cad.onshape.com/api/v6";
     authHeader := "Basic " ++ base64 "access:secret" |}.

(** The arguments [{stl: "solid t\nendsolid t"}]. *)
Definition args : jsval :=
  JObj [("stl", JStr ("solid t" ++ Server.nl ++ "endsolid t"))].

Definition respond (code : N) (txt : string) : fetch_result :=
  inl {| status := code; body_text := inl txt |}.

(** The same arguments after validation. *)
Definition parameters : params :=
  {| stl := "solid t" ++ Server.nl ++ "endsolid t";
     documentName := None; filename := None; createNewPartStudio := None |}.

(** A second invocation, of another model. *)
Definition other_parameters : params :=
  {| stl := "solid u" ++ Server.nl ++ "endsolid u";
     documentName := None; filename := None; createNewPartStudio := None |}.

Definition document : jsval :=
  JObj [("id", JStr "d1"); ("name", JStr "AI Model");
        ("defaultWorkspace", JObj [("id", JStr "w1")])].

Definition blob : jsval := JObj [("id", JStr "b1")].

Definition document_json : string := reference_stringify None document.

Definition blob_json : string := reference_stringify None blob.

(** A service that accepts the three calls. *)
Definition accepting (tr : list exchange) (r : request) : fetch_result :=
  match tr with
  | [] => respond 200 document_json
  | [_] => respond 200 blob_json
  | _ => respond 200 "{}"
  end.

(** A service that refuses every call with status 401. *)
Definition refusing (tr : list exchange) (r : request) : fetch_result :=
  respond 401 "Unauthorized".

(** A service that accepts the first call and fails the later ones with
    status 500. *)
Definition failing_upload (tr : list exchange) (r : request) : fetch_result :=
  match tr with
  | [] => respond 200 document_json
  | _ => respond 500 "Internal Server Error"
  end.

(** 2024-11-02T10:40:00.123Z *)
Definition instant : Z := 1730544000123.

(** One millisecond later. *)
Definition later : Z := 1730544000124.



(** A service that accepts the three calls and answers the import with
    the text [OK]. *)
Definition acknowledging (tr : list exchange) (r : request) : fetch_result :=
  match tr with
  | [] => respond 200 document_json
  | [_] => respond 200 blob_json
  | _ => respond 200 "OK"
  end.

Definition happy : world := {| clock := instant; service := accepting |}.
Definition acknowledged : world :=
  {| clock := instant; service := acknowledging |}.
Definition happy_later : world := {| clock := later; service := accepting |}.
Definition unauthorized : world := {| clock := instant; service := refusing |}.
Definition broken : world := {| clock := instant; service := failing_upload |}.

(** Environments: both keys set; the access key set but empty. *)
Definition credentials : environment :=
  fun k =>
    if String.eqb k "ONSHAPE_ACCESS_KEY" then Some "access"
    else if String.eqb k "ONSHAPE_SECRET_KEY" then Some "secret"
    else None.

Definition empty_access_key : environment :=
  fun k =>
    if String.eqb k "ONSHAPE_ACCESS_KEY" then Some ""
    else if String.eqb k "ONSHAPE_SECRET_KEY" then Some "secret"
    else None.

(** The setup script on a machine whose configuration file exists and
    holds the empty object. *)
Definition compiled_server : string := "/Users/u/VibeCAD/dist/server.js".

(** A build that writes the compiled server. *)
Definition compile (fs : Setup.fsys) : Setup.fsys :=
  Setup.write_to compiled_server "// compiled from src/server.ts" fs.

Definition user : Setup.inputs :=
  {| Setup.build_status := 0;
     Setup.build_result := compile;
     Setup.pwd := "/Users/u/VibeCAD";
     Setup.HOME := "/Users/u";
     Setup.ONSHAPE_ACCESS_KEY := "";
     Setup.ONSHAPE_SECRET_KEY := "";
     Setup.input_access_key := Some "access";
     Setup.input_secret_key := Some "secret";
     Setup.backup_stamp := "20241102_104000" |}.

Definition config_file : string :=
  "/Users/u/Library/Application Support/Claude/claude_desktop_config.json".

Definition backup_file : string :=
  config_file ++ ".backup.20241102_104000".

Definition machine : Setup.fsys :=
  {| Setup.files :=
       fun p => if String.eqb p config_file then Some "{}" else None;
     Setup.dirs :=
       String.eqb "/Users/u/Library/Application Support/Claude" |}.

(** A configuration with another server and another top-level key. *)
Definition existing_props : list (string * jsval) :=
  [("theme", JStr "dark");
   ("mcpServers",
    JObj [("files", JObj [("command", JStr "npx")]);
          ("onshape_mcp", JObj [("command", JStr "old")])])].

Definition existing_config : jsval := JObj existing_props.

End Scenario.

(** ** Further scenarios *)

Module Cases.
Import JS Server Reference Scenario.

(** A value spliced into the node programs that denotes itself. *)
Definition plain (raw : string) : Prop :=
  Setup.single_quoted raw = Some raw.

(** A service that cannot be reached. *)
Definition unreachable_error : exn :=
  Error "FetchError"
    "request to https://cad.onshape.com/api/v6/documents failed, reason: connect ECONNREFUSED".

Definition unreachable (tr : list exchange) (r : request) : fetch_result :=
  inr unreachable_error.

(** A service that answers the upload with a page that is not JSON. *)
Definition garbling (tr : list exchange) (r : request) : fetch_result :=
  match tr with
  | [] => respond 200 document_json
  | _ => respond 200 "<html>Bad gateway</html>"
  end.

(** A service that answers every call with status 200 and no body. *)
Definition silent (tr : list exchange) (r : request) : fetch_result :=
  respond 200 "".

(** A service whose document has a workspace but no id. *)
Definition anonymous_document : jsval :=
  JObj [("name", JStr "AI Model");
        ("defaultWorkspace", JObj [("id", JStr "w1")])].

Definition forgetful (tr : list exchange) (r : request) : fetch_result :=
  match tr with
  | [] => respond 200 (reference_stringify None anonymous_document)
  | [_] => respond 200 blob_json
  | _ => respond 200 "{}"
  end.

Definition offline : world := {| clock := instant; service := unreachable |}.
Definition garbled : world := {| clock := instant; service := garbling |}.
Definition mute : world := {| clock := instant; service := silent |}.
Definition nameless : world := {| clock := instant; service := forgetful |}.

(** An invocation that names its document and file. *)
Definition named_parameters : params :=
  {| stl := "solid t" ++ Server.nl ++ "endsolid t";
     documentName := Some "Bracket"; filename := Some "bracket v2.stl";
     createNewPartStudio := Some true |}.

Definition named_args : jsval :=
  JObj [("stl", JStr ("solid t" ++ Server.nl ++ "endsolid t"));
        ("documentName", JStr "Bracket");
        ("filename", JStr "bracket v2.stl");
        ("createNewPartStudio", JBool true);
        ("comment", JStr "ignored")].

(** The environment the setup script writes for the scenario's user. *)
Definition registered : environment :=
  fun k =>
    if String.eqb k "ONSHAPE_ACCESS_KEY" then Some "access"
    else if String.eqb k "ONSHAPE_SECRET_KEY" then Some "secret"
    else if String.eqb k "ONSHAPE_API_URL"
         then Some "https://cad.onshape.com/api/v11"
    else None.

(** Machines for the setup script: nothing there yet; a configuration
    file that is not JSON; a configuration with servers. *)
Definition blank_machine : Setup.fsys :=
  {| Setup.files := fun _ => None; Setup.dirs := fun _ => false |}.

Definition damaged_machine : Setup.fsys :=
  {| Setup.files :=
       fun p => if String.eqb p config_file then Some "{" else None;
     Setup.dirs :=
       String.eqb "/Users/u/Library/Application Support/Claude" |}.








Definition is_mkdir (op : Setup.fs_op) : Prop :=
  exists dir, op = Setup.Mkdir dir.


End Cases.

(** * Strings *)

Module StringFacts.

Lemma append_assoc (a b c : string) : (a ++ b) ++ c = a ++ b ++ c.
Proof. induction a as [|x a IH]; simpl; [reflexivity|now rewrite IH]. Qed.

Lemma append_nil_r (a : string) : a ++ "" = a.
Proof. induction a as [|x a IH]; simpl; [reflexivity|now rewrite IH]. Qed.

Lemma length_append (a b : string) :
  String.length (a ++ b) = (String.length a + String.length b)%nat.
Proof. induction a as [|c a IH]; simpl; [reflexivity|now rewrite IH]. Qed.

(** Two concatenations with left parts of the same length. *)
Lemma append_inj (a a' b b' : string) :
  String.length a = String.length a' ->
  a ++ b = a' ++ b' -> a = a' /\ b = b'.
Proof.
  revert a'. induction a as [|c a IH]; intros [|c' a'] Hlen Heq;
    try discriminate; simpl in *.
  - auto.
  - injection Heq as -> Heq. injection Hlen as Hlen.
    destruct (IH a' Hlen Heq) as [-> ->]. auto.
Qed.

Lemma append_cancel_l (a b c : string) : a ++ b = a ++ c -> b = c.
Proof.
  intros Heq. now apply append_inj in Heq.
Qed.

Lemma append_neq_self (a : string) (c : ascii) (b : string) :
  a ++ String c b <> a.
Proof.
  intros Heq. apply (f_equal String.length) in Heq.
  rewrite length_append in Heq. simpl in Heq. lia.
Qed.

End StringFacts.

(** * The built-ins on known values *)

Module BuiltinExamples.
Import JS Reference.

(** The test vectors of RFC 4648. *)
Example base64_f : base64 "f" = "Zg==".
Proof. reflexivity. Qed.

Example base64_fo : base64 "fo" = "Zm8=".
Proof. reflexivity. Qed.

Example base64_foo : base64 "foo" = "Zm9v".
Proof. reflexivity. Qed.

Example base64_foobar : base64 "foobar" = "Zm9vYmFy".
Proof. reflexivity. Qed.

Example base64_credentials :
  base64 "Aladdin:open sesame" = "QWxhZGRpbjpvcGVuIHNlc2FtZQ==".
Proof. reflexivity. Qed.

Example toISOString_epoch : toISOString 0 = "1970-01-01T00:00:00.000Z".
Proof. reflexivity. Qed.

Example toISOString_before_epoch :
  toISOString (-1) = "1969-12-31T23:59:59.999Z".
Proof. reflexivity. Qed.

Example toISOString_leap_day :
  toISOString 951782400000 = "2000-02-29T00:00:00.000Z".
Proof. reflexivity. Qed.

Example toISOString_five_digit_year :
  toISOString 253402300800000 = "+010000-01-01T00:00:00.000Z".
Proof. reflexivity. Qed.

Example toISOString_last :
  toISOString 8640000000000000 = "+275760-09-13T00:00:00.000Z".
Proof. reflexivity. Qed.

Example toISOString_first :
  toISOString (-8640000000000000) = "-271821-04-20T00:00:00.000Z".
Proof. reflexivity. Qed.

Example to_string_array :
  to_string (JArr [JNum "1"; JNull; JArr [JStr "a"; JStr "b"] []] [])
  = inl "1,,a,b".
Proof. reflexivity. Qed.

Example to_string_object : to_string (JObj [("id", JNum "1")]) = inl "[object Object]".
Proof. reflexivity. Qed.

Example get_member_of_null :
  get_member JNull "id"
  = inr (TypeError "Cannot read properties of null (reading 'id')").
Proof. reflexivity. Qed.

Example percent_encode_space : percent_encode "my model.stl" = "my%20model.stl".
Proof. reflexivity. Qed.

Example parse_stringify :
  reference_parse
    (reference_stringify (Some 2%nat)
       (JObj [("a", JArr [JNum "1"; JStr "x"; JNull] []);
              ("b", JObj [("c", JBool true)])]))
  = inl (JObj [("a", JArr [JNum "1"; JStr "x"; JNull] []);
               ("b", JObj [("c", JBool true)])]).
Proof. vm_compute. reflexivity. Qed.

Example parse_rejects_trailing_comma :
  exists e, reference_parse "[1,]" = inr e.
Proof. eexists. vm_compute. reflexivity. Qed.

End BuiltinExamples.

(** * Properties of the date rendering *)

Module DateSpec.
Import JS StringFacts.

Lemma length_digits w n : String.length (digits w n) = w.
Proof.
  revert n. induction w as [|w IH]; intros n; simpl; [reflexivity|].
  rewrite length_append, IH. simpl. lia.
Qed.

Lemma digit_char_inj a b :
  0 <= a < 10 -> 0 <= b < 10 ->
  ascii_of_N (48 + Z.to_N a) = ascii_of_N (48 + Z.to_N b) -> a = b.
Proof.
  intros Ha Hb Heq. apply (f_equal N_of_ascii) in Heq.
  rewrite !N_ascii_embedding in Heq by lia. lia.
Qed.

Lemma digits_inj w n m :
  0 <= n < 10 ^ Z.of_nat w -> 0 <= m < 10 ^ Z.of_nat w ->
  digits w n = digits w m -> n = m.
Proof.
  revert n m. induction w as [|w IH]; intros n m Hn Hm Heq.
  - simpl in *. lia.
  - rewrite Nat2Z.inj_succ, Z.pow_succ_r in Hn, Hm by lia.
    simpl in Heq.
    apply append_inj in Heq as [Hhi Hlo]; [|now rewrite !length_digits].
    injection Hlo as Hlo.
    apply digit_char_inj in Hlo; try (apply Z.mod_pos_bound; lia).
    apply IH in Hhi; try (split; [apply Z.div_pos; lia
                                 |apply Z.div_lt_upper_bound; lia]).
    rewrite (Z.div_mod n 10), (Z.div_mod m 10) by lia. lia.
Qed.

Lemma civil_from_days_range day :
  let '(y, m, d) := civil_from_days day in
  1 <= m <= 12 /\ 1 <= d <= 31.
Proof.
  unfold civil_from_days.
  pose proof (Z.mod_pos_bound (day + 719468) 146097 eq_refl) as Hdoe.
  set (doe := (day + 719468) mod 146097) in *.
  set (yoe := (doe - doe / 1460 + doe / 36524 - doe / 146096) / 365).
  assert (Hy : 0 <= yoe <= 399 /\
               0 <= doe - (365 * yoe + yoe / 4 - yoe / 100) <= 365).
  { subst yoe. Z.div_mod_to_equations. lia. }
  set (doy := doe - (365 * yoe + yoe / 4 - yoe / 100)) in *.
  set (mp := (5 * doy + 2) / 153).
  destruct (Z.ltb_spec mp 10); subst mp; Z.div_mod_to_equations; lia.
Qed.

Lemma civil_from_days_year day :
  -100000000 <= day <= 100000000 ->
  let '(y, m, d) := civil_from_days day in
  -999999 <= y <= 999999.
Proof.
  intros Hday. unfold civil_from_days.
  pose proof (Z.mod_pos_bound (day + 719468) 146097 eq_refl) as Hdoe.
  set (doe := (day + 719468) mod 146097) in *.
  set (yoe := (doe - doe / 1460 + doe / 36524 - doe / 146096) / 365).
  assert (Hy : 0 <= yoe <= 399).
  { subst yoe. Z.div_mod_to_equations. lia. }
  assert (He : -1000 <= (day + 719468) / 146097 <= 1000).
  { Z.div_mod_to_equations. lia. }
  destruct (_ <=? 2); lia.
Qed.

Lemma civil_from_days_inj day day' :
  civil_from_days day = civil_from_days day' -> day = day'.
Proof.
  unfold civil_from_days.
  pose proof (Z.mod_pos_bound (day + 719468) 146097 eq_refl) as Hdoe.
  pose proof (Z.mod_pos_bound (day' + 719468) 146097 eq_refl) as Hdoe'.
  pose proof (Z.div_mod (day + 719468) 146097 ltac:(lia)) as Hz.
  pose proof (Z.div_mod (day' + 719468) 146097 ltac:(lia)) as Hz'.
  set (era := (day + 719468) / 146097) in *.
  set (era' := (day' + 719468) / 146097) in *.
  set (doe := (day + 719468) mod 146097) in *.
  set (doe' := (day' + 719468) mod 146097) in *.
  set (yoe := (doe - doe / 1460 + doe / 36524 - doe / 146096) / 365).
  set (yoe' := (doe' - doe' / 1460 + doe' / 36524 - doe' / 146096) / 365).
  assert (Hy : 0 <= yoe <= 399 /\
               0 <= doe - (365 * yoe + yoe / 4 - yoe / 100) <= 365).
  { subst yoe. Z.div_mod_to_equations. lia. }
  assert (Hy' : 0 <= yoe' <= 399 /\
                0 <= doe' - (365 * yoe' + yoe' / 4 - yoe' / 100) <= 365).
  { subst yoe'. Z.div_mod_to_equations. lia. }
  set (doy := doe - (365 * yoe + yoe / 4 - yoe / 100)) in *.
  set (doy' := doe' - (365 * yoe' + yoe' / 4 - yoe' / 100)) in *.
  set (mp := (5 * doy + 2) / 153).
  set (mp' := (5 * doy' + 2) / 153).
  assert (Hmp : 0 <= mp <= 11) by (subst mp; Z.div_mod_to_equations; lia).
  assert (Hmp' : 0 <= mp' <= 11) by (subst mp'; Z.div_mod_to_equations; lia).
  intros Heq. injection Heq as Hyear Hmonth Hdate.
  assert (Emp : mp = mp').
  { destruct (Z.ltb_spec mp 10), (Z.ltb_spec mp' 10); lia. }
  rewrite <- Emp in *.
  assert (Edoy : doy = doy') by lia.
  assert (Eyoe : yoe = yoe' /\ era = era') by lia.
  destruct Eyoe as [Eyoe Eera].
  assert (Edoe : doe = doe').
  { subst doy doy'. rewrite <- Eyoe in Edoy. lia. }
  lia.
Qed.


Lemma length_year_string y :
  String.length (year_string y)
  = if (0 <=? y) && (y <=? 9999) then 4%nat else 7%nat.
Proof.
  unfold year_string. destruct ((0 <=? y) && (y <=? 9999)).
  - apply length_digits.
  - destruct (y <? 0); rewrite length_append, length_digits; reflexivity.
Qed.

Lemma year_string_inj y y' :
  -999999 <= y <= 999999 -> -999999 <= y' <= 999999 ->
  year_string y = year_string y' -> y = y'.
Proof.
  intros Hy Hy' Heq.
  pose proof (f_equal String.length Heq) as Hlen.
  rewrite !length_year_string in Hlen.
  unfold year_string in Heq.
  destruct (Z.leb_spec 0 y), (Z.leb_spec y 9999),
           (Z.leb_spec 0 y'), (Z.leb_spec y' 9999);
    cbn [andb] in *; try discriminate;
    try (apply digits_inj in Heq; [exact Heq|simpl; lia|simpl; lia]);
    (apply append_inj in Heq as [Hsign Heq];
     [|destruct (y <? 0), (y' <? 0); reflexivity]);
    (apply digits_inj in Heq; [|simpl; lia|simpl; lia]);
    destruct (Z.ltb_spec y 0), (Z.ltb_spec y' 0); try discriminate; lia.
Qed.

(** The time within the day is determined by its four printed fields. *)
Lemma time_in_day_inj ms ms' :
  0 <= ms < msPerDay -> 0 <= ms' < msPerDay ->
  ms / 3600000 = ms' / 3600000 ->
  ms / 60000 mod 60 = ms' / 60000 mod 60 ->
  ms / 1000 mod 60 = ms' / 1000 mod 60 ->
  ms mod 1000 = ms' mod 1000 ->
  ms = ms'.
Proof.
  unfold msPerDay. intros. Z.div_mod_to_equations. lia.
Qed.

Ltac peel H name :=
  let sep := fresh name in
  apply append_inj in H as [sep H];
  [|rewrite ?length_digits; reflexivity].

Lemma toISOString_inj t t' :
  valid_time t -> valid_time t' ->
  toISOString t = toISOString t' -> t = t'.
Proof.
  unfold valid_time, toISOString. intros Ht Ht'.
  pose proof (Z.mod_pos_bound t msPerDay eq_refl) as Hms.
  pose proof (Z.mod_pos_bound t' msPerDay eq_refl) as Hms'.
  pose proof (Z.div_mod t msPerDay ltac:(discriminate)) as Hsplit.
  pose proof (Z.div_mod t' msPerDay ltac:(discriminate)) as Hsplit'.
  assert (Hday : -100000000 <= t / msPerDay <= 100000000).
  { unfold msPerDay in *. Z.div_mod_to_equations. lia. }
  assert (Hday' : -100000000 <= t' / msPerDay <= 100000000).
  { unfold msPerDay in *. Z.div_mod_to_equations. lia. }
  pose proof (civil_from_days_range (t / msPerDay)) as Hr.
  pose proof (civil_from_days_range (t' / msPerDay)) as Hr'.
  pose proof (civil_from_days_year (t / msPerDay) Hday) as Hyr.
  pose proof (civil_from_days_year (t' / msPerDay) Hday') as Hyr'.
  pose proof (civil_from_days_inj (t / msPerDay) (t' / msPerDay)) as Hinj.
  destruct (civil_from_days (t / msPerDay)) as [[y m] d].
  destruct (civil_from_days (t' / msPerDay)) as [[y' m'] d'].
  set (ms := t mod msPerDay) in *. set (ms' := t' mod msPerDay) in *.
  intros Heq.
  pose proof (f_equal String.length Heq) as Hlen.
  repeat (rewrite length_append in Hlen; cbn [String.length] in Hlen).
  rewrite !length_digits in Hlen.
  apply append_inj in Heq as [Hy Heq]; [|lia].
  apply year_string_inj in Hy; [|lia|lia].
  peel Heq Hx. peel Heq Hm. peel Heq Hx. peel Heq Hd.
  peel Heq Hx. peel Heq Hh. peel Heq Hx. peel Heq Hmi.
  peel Heq Hx. peel Heq Hs. peel Heq Hx. peel Heq Hmilli.
  apply digits_inj in Hm; [|simpl; lia|simpl; lia].
  apply digits_inj in Hd; [|simpl; lia|simpl; lia].
  assert (Eday : t / msPerDay = t' / msPerDay).
  { apply Hinj. congruence. }
  assert (Ems : ms = ms').
  { unfold msPerDay in *.
    apply time_in_day_inj; try assumption.
    - apply digits_inj in Hh; [exact Hh| |];
        simpl; Z.div_mod_to_equations; lia.
    - apply digits_inj in Hmi; [exact Hmi| |];
        simpl; Z.div_mod_to_equations; lia.
    - apply digits_inj in Hs; [exact Hs| |];
        simpl; Z.div_mod_to_equations; lia.
    - apply digits_inj in Hmilli; [exact Hmilli| |];
        simpl; Z.div_mod_to_equations; lia. }
  rewrite Hsplit, Hsplit', Eday. fold ms ms'. now rewrite Ems.
Qed.

End DateSpec.

(** * Properties of the server *)

Module ServerSpec.
Import JS Server Calls StringFacts.

Section Run.
Context `{Builtins}.
Variable w : world.

Lemma run_bind {A B} (p : prog A) (f : A -> prog B) (tr : list exchange) :
  run w tr (bind p f) =
  match run w tr p with
  | (tr', inl a) => run w tr' (f a)
  | (tr', inr e) => (tr', inr e)
  end.
Proof.
  revert tr; induction p as [a|e|r k IH|k IH]; intros tr; simpl; auto.
Qed.

Lemma run_try_catch {A} (p : prog A) (h : exn -> prog A) (tr : list exchange) :
  run w tr (try_catch p h) =
  match run w tr p with
  | (tr', inl a) => (tr', inl a)
  | (tr', inr e) => run w tr' (h e)
  end.
Proof.
  revert tr; induction p as [a|e|r k IH|k IH]; intros tr; simpl; auto.
Qed.

Lemma run_lift {A} (r : result A) (tr : list exchange) :
  run w tr (lift r) = (tr, r).
Proof. destruct r; reflexivity. Qed.

Lemma run_onshapeApiRequest cfg method path arg tr :
  run w tr (onshapeApiRequest cfg method path arg) =
  let req := fetch_opts cfg method path arg in
  ((tr ++ [(req, service w tr req)])%list, decode (service w tr req)).
Proof.
  unfold onshapeApiRequest.
  match goal with
  | |- context [Fetch ?r _] =>
      replace r with (fetch_opts cfg method path arg)
        by (destruct arg; reflexivity)
  end.
  cbv zeta. cbn [run].
  generalize (service w tr (fetch_opts cfg method path arg)).
  generalize (fetch_opts cfg method path arg).
  intros r o. rewrite run_bind, run_lift. unfold decode, rbind.
  destruct o as [res|e]; [|reflexivity].
  destruct (res_ok res); simpl; rewrite run_bind, run_lift;
    destruct (body_text res) as [txt|e]; try reflexivity.
    destruct txt; [reflexivity|apply run_lift].
Qed.

(** The handler runs as the pipeline, and no exception escapes it. *)
Lemma run_import_stl cfg p :
  run w [] (import_stl cfg p) =
  (fst (pipeline cfg w p), inl (snd (pipeline cfg w p))).
Proof.
  unfold import_stl, pipeline.
  rewrite run_try_catch, run_bind.
  assert (E : run w [] match documentName p with
                       | Some name => Ret name
                       | None => Now (fun t => Ret ("AI Model " ++ toISOString t))
                       end = ([], inl (document_name w p))).
  { unfold document_name. destruct (documentName p); reflexivity. }
  rewrite E; clear E.
  rewrite run_bind, run_onshapeApiRequest. cbv zeta.
  change (fetch_opts cfg "POST" "/documents" _)
    with (create_request cfg (document_name w p)).
  simpl app.
  set (r1 := create_request cfg (document_name w p)).
  set (o1 := service w [] r1).
  destruct (decode o1) as [doc|e]; [|reflexivity].
  cbv zeta. fold (file_name p). fold (fresh_studio p).
  rewrite run_bind, run_lift. unfold upload_target.
  destruct (doc_id doc) as [d|e]; [|reflexivity].
  destruct (workspace_id doc) as [ws|e]; [|reflexivity].
  destruct (encodeURIComponent (file_name p)) as [f|e]; [|reflexivity].
  cbn [rbind ok].
  rewrite run_bind, run_onshapeApiRequest. cbv zeta.
  change (fetch_opts cfg "POST" _ (FormArg _))
    with (upload_request cfg d ws f (file_name p) (stl p)).
  simpl app.
  set (r2 := upload_request cfg d ws f (file_name p) (stl p)).
  set (o2 := service w [(r1, o1)] r2).
  destruct (decode o2) as [blob|e]; [|reflexivity].
  rewrite run_bind, run_lift. cbn [ok].
  rewrite run_bind, run_lift.
  destruct (get_member blob "id") as [blob_id|e]; [|reflexivity].
  rewrite run_bind, run_onshapeApiRequest. cbv zeta.
  change (fetch_opts cfg "POST" _ (ObjArg _))
    with (import_request cfg d ws blob_id (fresh_studio p)).
  simpl app.
  set (r3 := import_request cfg d ws blob_id (fresh_studio p)).
  unfold exchange in *.
  destruct (decode (service w [(r1, o1); (r2, o2)] r3)) as [v|e];
    reflexivity.
Qed.

Lemma run_call_tool cfg args :
  run w [] (call_tool cfg args) =
  match validate args with
  | None => ([], inl InvalidParams)
  | Some p => (fst (pipeline cfg w p), inl (Result (snd (pipeline cfg w p))))
  end.
Proof.
  unfold call_tool. destruct (validate args) as [p|]; [|reflexivity].
  rewrite run_bind, run_import_stl. reflexivity.
Qed.

End Run.

(** *** Outcomes of a call *)

Section Decode.
Context `{Builtins}.

Lemma decode_yields o v : decode o = inl v <-> yields o v.
Proof.
  unfold decode, yields, rbind, ok, throw. split.
  - destruct o as [res|e]; [|discriminate].
    destruct (res_ok res) eqn:Hok; simpl;
      destruct (body_text res) as [txt|e] eqn:Htxt; try discriminate.
    intros Hv. exists res, txt. repeat split; auto.
    destruct txt; [congruence|exact Hv].
  - intros (res & txt & -> & Hok & Htxt & Hv).
    rewrite Hok, Htxt. simpl. destruct txt; [congruence|exact Hv].
Qed.

Lemma decode_fails o code t :
  fails_with o code t ->
  decode o = inr (Error "Error" ("Onshape API Error " ++ string_of_N code
                                 ++ ": " ++ t)).
Proof.
  intros (res & -> & Hok & <- & Htxt).
  unfold decode, rbind. rewrite Hok, Htxt. reflexivity.
Qed.


Lemma succeeds_decode o : succeeds o <-> exists v, decode o = inl v.
Proof.
  unfold succeeds. split; intros [v Hv]; exists v; apply decode_yields; auto.
Qed.

End Decode.

(** *** Texts *)

Lemma contains_refl (x : string) : contains x x.
Proof. exists "", "". simpl. now rewrite append_nil_r. Qed.


Lemma contains_app_l (x a b : string) : contains x b -> contains x (a ++ b).
Proof.
  intros (pre & post & ->). exists (a ++ pre), post.
  now rewrite append_assoc.
Qed.



Lemma confirmation_text_contains name d :
  exists m, text_of (confirmation name d) = Some m /\
            contains d m /\
            contains ("https://cad.onshape.com/documents/" ++ d) m.
Proof.
  eexists. split; [reflexivity|]. split.
  - repeat apply contains_app_l. apply contains_refl.
  - do 8 apply contains_app_l. exists "View: ", "".
    simpl. now rewrite append_nil_r.
Qed.

(** *** The call sequence *)

Section Sequence.
Context `{Builtins}.
Variable w : world.
Variable cfg : config.

(** C1, as amended: when the arguments pass the schema (so the STL text
    is non-empty), the create call succeeds and its response supplies the
    document and workspace identifiers, the file name can be encoded, and
    the upload call succeeds and its response supplies a blob identifier,
    then exactly three calls are made, in the order create, upload,
    import; the upload goes to the created document and its default
    workspace, and the body of the import names the format STL and the
    uploaded blob. *)
Theorem import_stl_three_calls args p doc d ws f blob blob_id :
  validate args = Some p ->
  let r1 := create_request cfg (document_name w p) in
  let o1 := service w [] r1 in
  yields o1 doc ->
  doc_id doc = inl d ->
  workspace_id doc = inl ws ->
  encodeURIComponent (file_name p) = inl f ->
  let r2 := upload_request cfg d ws f (file_name p) (stl p) in
  let o2 := service w [(r1, o1)] r2 in
  yields o2 blob ->
  get_member blob "id" = inl blob_id ->
  let r3 := import_request cfg d ws blob_id (fresh_studio p) in
  stl p <> "" /\
  fst (run w [] (call_tool cfg args)) =
  [(r1, o1); (r2, o2); (r3, service w [(r1, o1); (r2, o2)] r3)].
Proof.
  intros Hv r1 o1 Hdoc Hd Hws Hf r2 o2 Hblob Hid r3. split.
  - unfold validate in Hv. destruct args; try discriminate.
    destruct (string_min_1 _) as [s|] eqn:Hs; [|discriminate].
    destruct (optional_string _); [|discriminate].
    destruct (optional_string _); [|discriminate].
    destruct (optional_boolean _); [|discriminate].
    injection Hv as <-. simpl.
    unfold string_min_1 in Hs.
    destruct (assoc "stl" props) as [[| | | |[|c s']| |]|]; try discriminate.
    injection Hs as <-. discriminate.
  - rewrite run_call_tool, Hv. unfold pipeline, upload_target.
    apply decode_yields in Hdoc, Hblob.
    fold r1 o1. rewrite Hdoc, Hd, Hws, Hf. cbn [rbind ok].
    fold r2 o2. rewrite Hblob, Hid. fold r3.
    destruct (decode (service w [(r1, o1); (r2, o2)] r3)); reflexivity.
Qed.

(** The call whose outcome [onshapeApiRequest] turns into an exception
    is the last one, and the exception is what the result reports. *)
Lemma failed_call_ends_run p i req o e :
  nth_error (fst (run w [] (import_stl cfg p))) i = Some (req, o) ->
  decode o = inr e ->
  length (fst (run w [] (import_stl cfg p))) = S i /\
  snd (run w [] (import_stl cfg p)) = inl (failure e).
Proof.
  rewrite run_import_stl. cbn [fst snd]. unfold pipeline, upload_target.
  set (r1 := create_request cfg (document_name w p)).
  set (o1 := service w [] r1).
  intros Hi Hfail.
  destruct (decode o1) as [doc|e1] eqn:E1.
  2:{ destruct i as [|[|]]; try discriminate. injection Hi as <- <-.
      rewrite Hfail in E1. injection E1 as <-. auto. }
  destruct (doc_id doc) as [d|e']; cbn [rbind] in *.
  2:{ destruct i as [|[|]]; try discriminate. injection Hi as <- <-.
      congruence. }
  destruct (workspace_id doc) as [ws|e']; cbn [rbind] in *.
  2:{ destruct i as [|[|]]; try discriminate. injection Hi as <- <-.
      congruence. }
  destruct (encodeURIComponent (file_name p)) as [f|e']; cbn [rbind ok] in *.
  2:{ destruct i as [|[|]]; try discriminate. injection Hi as <- <-.
      congruence. }
  set (r2 := upload_request cfg d ws f (file_name p) (stl p)) in *.
  set (o2 := service w [(r1, o1)] r2) in *.
  destruct (decode o2) as [blob|e2] eqn:E2.
  2:{ destruct i as [|[|[|]]]; try discriminate; injection Hi as <- <-.
      - congruence.
      - rewrite Hfail in E2. injection E2 as <-. auto. }
  destruct (get_member blob "id") as [blob_id|e'].
  2:{ destruct i as [|[|[|]]]; try discriminate; injection Hi as <- <-;
        congruence. }
  set (r3 := import_request cfg d ws blob_id (fresh_studio p)) in *.
  set (o3 := service w [(r1, o1); (r2, o2)] r3) in *.
  destruct (decode o3) as [v|e3] eqn:E3;
    destruct i as [|[|[|[|]]]]; try discriminate; injection Hi as <- <-;
    try congruence.
  rewrite Hfail in E3. injection E3 as <-. auto.
Qed.



(** C3: arguments whose STL text is empty do not pass the schema; no
    call is made and the caller gets an error. *)
Theorem import_stl_rejects_empty_stl props :
  assoc "stl" props = Some (JStr "") ->
  validate (JObj props) = None /\
  exists r, run w [] (call_tool cfg (JObj props)) = ([], inl r) /\ is_error r.
Proof.
  intros Hstl.
  assert (Hv : validate (JObj props) = None).
  { unfold validate. rewrite Hstl. reflexivity. }
  split; [exact Hv|]. exists InvalidParams.
  rewrite run_call_tool, Hv. split; [reflexivity|exact I].
Qed.

(** C4: the first call is always the create call, for a private
    document; its name is the caller's, or "AI Model " followed by the
    ISO rendering of the clock when the caller gave none.  The second
    call, when there is one, uploads under the caller's file name, or
    under "model.stl" when the caller gave none; and there is one, the
    upload of the STL text under that file name, as soon as the create
    call succeeds and its response supplies the identifiers of the
    document and its workspace (and the file name can be encoded). *)
Theorem import_stl_defaults p :
  let tr := fst (run w [] (import_stl cfg p)) in
  (exists name o rest,
     tr = (create_request cfg name, o) :: rest /\
     body (create_request cfg name) =
       Text (JSON_stringify None
               (JObj [("name", JStr name); ("public", JBool false)])) /\
     match documentName p with
     | Some given => name = given
     | None => name = "AI Model " ++ toISOString (clock w)
     end) /\
  (forall req o, nth_error tr 1 = Some (req, o) ->
     exists d ws f name,
       req = upload_request cfg d ws f name (stl p) /\
       encodeURIComponent name = inl f /\
       match filename p with
       | Some given => name = given
       | None => name = "model.stl"
       end) /\
  (forall doc d ws f,
     yields (service w [] (create_request cfg (document_name w p))) doc ->
     doc_id doc = inl d ->
     workspace_id doc = inl ws ->
     encodeURIComponent (file_name p) = inl f ->
     exists o,
       nth_error tr 1
       = Some (upload_request cfg d ws f (file_name p) (stl p), o) /\
       body (upload_request cfg d ws f (file_name p) (stl p)) =
         Multipart [ {| field := "file"; data := stl p;
                        part_filename := file_name p;
                        part_contentType := "application/octet-stream" |} ] /\
       match filename p with
       | Some given => file_name p = given
       | None => file_name p = "model.stl"
       end).
Proof.
  cbv zeta. rewrite <- and_assoc. split.
  2:{ intros doc d ws f Hdoc Hd Hws Hf. apply decode_yields in Hdoc.
      rewrite run_import_stl. cbn [fst]. unfold pipeline, upload_target.
      rewrite Hdoc, Hd, Hws, Hf. cbn [rbind ok].
      assert (Hfile : match filename p with
                      | Some given => file_name p = given
                      | None => file_name p = "model.stl"
                      end).
      { unfold file_name. destruct (filename p); reflexivity. }
      clear Hdoc Hd Hws Hf.
      destruct (decode _) as [blob|e2];
        [destruct (get_member blob "id") as [blob_id|e];
         [destruct (decode _)|]|];
        eexists; (split; [reflexivity|]); (split; [reflexivity|exact Hfile]). }
  rewrite run_import_stl. cbn [fst]. unfold pipeline.
  set (r1 := create_request cfg (document_name w p)).
  set (o1 := service w [] r1).
  assert (Hname : match documentName p with
                  | Some given => document_name w p = given
                  | None => document_name w p
                            = "AI Model " ++ toISOString (clock w)
                  end).
  { unfold document_name. destruct (documentName p); reflexivity. }
  assert (Hfile : match filename p with
                  | Some given => file_name p = given
                  | None => file_name p = "model.stl"
                  end).
  { unfold file_name. destruct (filename p); reflexivity. }
  destruct (decode o1) as [doc|e1].
  2:{ split.
      - exists (document_name w p), o1, []. auto.
      - intros req o Hn. discriminate. }
  unfold upload_target.
  destruct (doc_id doc) as [d|e]; cbn [rbind].
  2:{ split; [exists (document_name w p), o1, []; auto|discriminate]. }
  destruct (workspace_id doc) as [ws|e]; cbn [rbind].
  2:{ split; [exists (document_name w p), o1, []; auto|discriminate]. }
  destruct (encodeURIComponent (file_name p)) as [f|e] eqn:Ef; cbn [rbind ok].
  2:{ split; [exists (document_name w p), o1, []; auto|discriminate]. }
  set (r2 := upload_request cfg d ws f (file_name p) (stl p)).
  set (o2 := service w [(r1, o1)] r2).
  assert (Hup : forall req o, Some (r2, o2) = Some (req, o) ->
            exists d ws f name,
              req = upload_request cfg d ws f name (stl p) /\
              encodeURIComponent name = inl f /\
              match filename p with
              | Some given => name = given
              | None => name = "model.stl"
              end).
  { intros req o Hn. injection Hn as <- <-.
    exists d, ws, f, (file_name p). auto. }
  destruct (decode o2) as [blob|e2];
    [destruct (get_member blob "id") as [blob_id|e];
     [destruct (decode _)|]|];
    (split; [eexists (document_name w p), o1, _; split; [reflexivity|auto]
            |exact Hup]).
Qed.

(** C5, as amended: when three calls were made and each succeeded (a
    success status and a body that can be read and is empty or JSON),
    the result is not an error, and its text contains the identifier of
    the created document and the viewer URL
    [https://cad.onshape.com/documents/<identifier>]. *)
Theorem import_stl_confirms p e1 e2 e3 :
  fst (run w [] (import_stl cfg p)) = [e1; e2; e3] ->
  succeeds (snd e1) -> succeeds (snd e2) -> succeeds (snd e3) ->
  exists doc d r m,
    yields (snd e1) doc /\ doc_id doc = inl d /\
    snd (run w [] (import_stl cfg p)) = inl r /\
    isError r = None /\
    text_of r = Some m /\
    contains d m /\
    contains ("https://cad.onshape.com/documents/" ++ d) m.
Proof.
  rewrite run_import_stl. cbn [fst snd]. unfold pipeline, upload_target.
  set (r1 := create_request cfg (document_name w p)).
  set (o1 := service w [] r1).
  intros Htr _ _ H3.
  destruct (decode o1) as [doc|e] eqn:E1; [|discriminate].
  destruct (doc_id doc) as [d|e] eqn:Ed; cbn [rbind] in *; [|discriminate].
  destruct (workspace_id doc) as [ws|e]; cbn [rbind] in *; [|discriminate].
  destruct (encodeURIComponent (file_name p)) as [f|e]; cbn [rbind ok] in *;
    [|discriminate].
  destruct (decode (service w [(r1, o1)] _)) as [blob|e]; [|discriminate].
  destruct (get_member blob "id") as [blob_id|e]; [|discriminate].
  destruct (decode (service w [(r1, o1); _] _)) as [v|e] eqn:E3.
  - injection Htr as <- <- <-.
    destruct (confirmation_text_contains (document_name w p) d)
      as (m & Hm & Hc1 & Hc2).
    exists doc, d, (confirmation (document_name w p) d), m.
    cbn [snd]. apply decode_yields in E1. auto 10.
  - injection Htr as <- <- <-. cbn [snd] in H3.
    apply succeeds_decode in H3 as [v3 H3]. unfold exchange in *.
    congruence.
Qed.

(** C9: whatever the service does, the handler returns a result and no
    exception escapes; the result is one text item, and it carries the
    error flag unless three calls were made and all three succeeded. *)
Theorem import_stl_always_responds p :
  exists tr r m,
    run w [] (import_stl cfg p) = (tr, inl r) /\
    content r = [ {| type := "text"; text := m |} ] /\
    (isError r = Some true \/
     isError r = None /\
     exists e1 e2 e3,
       tr = [e1; e2; e3] /\
       succeeds (snd e1) /\ succeeds (snd e2) /\ succeeds (snd e3)).
Proof.
  rewrite run_import_stl. unfold pipeline, upload_target.
  set (r1 := create_request cfg (document_name w p)).
  set (o1 := service w [] r1).
  assert (F : forall (tr : list exchange) e, exists tr' r m,
            (fst (tr, failure e), @inl _ exn (snd (tr, failure e)))
              = (tr', inl r) /\
            content r = [ {| type := "text"; text := m |} ] /\
            (isError r = Some true \/
             isError r = None /\
             exists e1 e2 e3,
               tr' = [e1; e2; e3] /\
               succeeds (snd e1) /\ succeeds (snd e2) /\ succeeds (snd e3))).
  { intros tr e. eexists _, _, _. split; [reflexivity|].
    split; [reflexivity|]. left. reflexivity. }
  destruct (decode o1) as [doc|e] eqn:E1; [|apply F].
  destruct (doc_id doc) as [d|e]; cbn [rbind]; [|apply F].
  destruct (workspace_id doc) as [ws|e]; cbn [rbind]; [|apply F].
  destruct (encodeURIComponent (file_name p)) as [f|e]; cbn [rbind ok];
    [|apply F].
  destruct (decode (service w [(r1, o1)] _)) as [blob|e] eqn:E2; [|apply F].
  destruct (get_member blob "id") as [blob_id|e]; [|apply F].
  destruct (decode (service w [(r1, o1); _] _)) as [v|e] eqn:E3; [|apply F].
  eexists _, _, _. split; [reflexivity|]. split; [reflexivity|].
  right. split; [reflexivity|]. eexists _, _, _. split; [reflexivity|].
  cbn [snd]. repeat split; apply succeeds_decode; eauto.
Qed.

(** The first call is the create call for the document's name. *)
Lemma first_call p :
  exists o rest,
    fst (run w [] (import_stl cfg p))
    = (create_request cfg (document_name w p), o) :: rest.
Proof.
  rewrite run_import_stl. cbn [fst]. unfold pipeline, upload_target.
  destruct (decode _); [|eexists _, _; reflexivity].
  destruct (doc_id _); cbn [rbind]; [|eexists _, _; reflexivity].
  destruct (workspace_id _); cbn [rbind]; [|eexists _, _; reflexivity].
  destruct (encodeURIComponent _); cbn [rbind ok];
    [|eexists _, _; reflexivity].
  destruct (decode _); [|eexists _, _; reflexivity].
  destruct (get_member _ _); [|eexists _, _; reflexivity].
  destruct (decode _); eexists _, _; reflexivity.
Qed.

End Sequence.

(** *** Default names *)

Section Names.
Context `{Builtins}.
Variable cfg : config.

(** C7, as amended: two invocations without a document name whose clock
    readings are valid time values and differ (by a millisecond or more)
    create documents with different names. *)
Theorem default_names_distinct w1 w2 p1 p2 :
  documentName p1 = None -> documentName p2 = None ->
  valid_time (clock w1) -> valid_time (clock w2) ->
  clock w1 <> clock w2 ->
  exists o1 o2 rest1 rest2,
    fst (run w1 [] (import_stl cfg p1))
    = (create_request cfg ("AI Model " ++ toISOString (clock w1)), o1)
      :: rest1 /\
    fst (run w2 [] (import_stl cfg p2))
    = (create_request cfg ("AI Model " ++ toISOString (clock w2)), o2)
      :: rest2 /\
    "AI Model " ++ toISOString (clock w1)
    <> "AI Model " ++ toISOString (clock w2).
Proof.
  intros Hn1 Hn2 Hv1 Hv2 Hne.
  destruct (first_call w1 cfg p1) as (o1 & rest1 & H1).
  destruct (first_call w2 cfg p2) as (o2 & rest2 & H2).
  unfold document_name in H1, H2. rewrite Hn1 in H1. rewrite Hn2 in H2.
  exists o1, o2, rest1, rest2. split; [exact H1|]. split; [exact H2|].
  intros Heq. apply append_cancel_l in Heq.
  apply DateSpec.toISOString_inj in Heq; auto.
Qed.

End Names.

(** *** Start-up *)

Section Startup.
Context `{Builtins}.

Lemma pipeline_authorized cfg w p :
  Forall (fun e => assoc "Authorization" (headers (fst e))
                   = Some (authHeader cfg))
         (fst (pipeline cfg w p)).
Proof.
  unfold pipeline, upload_target.
  destruct (decode _); [|repeat constructor].
  destruct (doc_id _); cbn [rbind]; [|repeat constructor].
  destruct (workspace_id _); cbn [rbind]; [|repeat constructor].
  destruct (encodeURIComponent _); cbn [rbind ok]; [|repeat constructor].
  destruct (decode _); [|repeat constructor].
  destruct (get_member _ _); [|repeat constructor].
  destruct (decode _); repeat constructor.
Qed.

(** C6, as amended: when either credential variable is unset or empty
    the process exits with status 1 and serves nothing; when both are set
    and non-empty, the configuration built once at start-up holds the
    header "Basic " followed by the base64 encoding of
    [<access key>:<secret key>], and every request of every invocation
    carries that same header. *)
Theorem startup_credentials env invocations :
  (missing (env "ONSHAPE_ACCESS_KEY") \/ missing (env "ONSHAPE_SECRET_KEY") ->
   main env invocations = Exited 1) /\
  (forall a s,
     env "ONSHAPE_ACCESS_KEY" = Some a ->
     env "ONSHAPE_SECRET_KEY" = Some s ->
     a <> "" -> s <> "" ->
     exists cfg runs,
       startup env = Ready cfg /\
       authHeader cfg = "Basic " ++ base64 (a ++ ":" ++ s) /\
       main env invocations = Served runs /\
       length runs = length invocations /\
       Forall (fun r =>
                 Forall (fun e => assoc "Authorization" (headers (fst e))
                                  = Some (authHeader cfg))
                        (fst r))
              runs).
Proof.
  unfold main, startup. split.
  - intros [[-> | ->] | [-> | ->]]; cbn [falsy orb]; try reflexivity;
      destruct (falsy _); reflexivity.
  - intros a s -> -> Ha Hs.
    destruct a as [|c a]; [congruence|]. destruct s as [|c' s]; [congruence|].
    cbn [falsy orb env_string].
    eexists _, _. split; [reflexivity|]. split; [reflexivity|].
    split; [reflexivity|]. split; [apply length_map|].
    apply Forall_map, Forall_forall. intros [w args] _. cbn [fst snd].
    rewrite run_call_tool. destruct (validate args) as [p|].
    + apply pipeline_authorized.
    + constructor.
Qed.

End Startup.

End ServerSpec.

(** ** The scenarios, run with the reference built-ins *)

Module ServerExamples.
Import JS Server Calls Scenario Reference ServerSpec.

Lemma accepting_yields_document :
  yields (respond 200 document_json) document.
Proof.
  exists {| status := 200; body_text := inl document_json |}, document_json.
  repeat split.
Defined.

Lemma accepting_yields_blob : yields (respond 200 blob_json) blob.
Proof.
  exists {| status := 200; body_text := inl blob_json |}, blob_json.
  repeat split.
Defined.

(** The end-to-end scenario of the specification: three calls. *)
Lemma import_stl_three_calls_witness :
  stl parameters <> "" /\
  map (fun e => url (fst e)) (fst (run happy [] (call_tool cfg args))) =
  [ "https://cad.onshape.com/api/v6/documents";
    "https://cad.onshape.com/api/v6/blobelements/d/d1/w/w1?encodedFilename=model.stl";
    "https://cad.onshape.com/api/v6/partstudios/d/d1/w/w1/import" ].
Proof.
  destruct (import_stl_three_calls happy cfg args parameters
              document "d1" "w1" "model.stl" blob (JStr "b1")
              eq_refl accepting_yields_document eq_refl eq_refl eq_refl
              accepting_yields_blob eq_refl) as [Hne Htr].
  split; [exact Hne|]. rewrite Htr. reflexivity.
Defined.

(** With non-empty STL text and a service that refuses the create call,
    one call is made, not three. *)
Lemma import_stl_one_call_when_refused :
  validate args = Some parameters /\
  stl parameters <> "" /\
  length (fst (run unauthorized [] (call_tool cfg args))) = 1%nat /\
  length (fst (run unauthorized [] (call_tool cfg args))) <> 3%nat.
Proof.
  split; [reflexivity|]. split; [discriminate|].
  split; [reflexivity|]. vm_compute. discriminate.
Qed.




(** An upload that fails with status 500: two calls, no import. *)
Example import_stl_stops_after_failed_upload :
  map (fun e => url (fst e)) (fst (run broken [] (import_stl cfg parameters)))
  = [ "https://cad.onshape.com/api/v6/documents";
      "https://cad.onshape.com/api/v6/blobelements/d/d1/w/w1?encodedFilename=model.stl" ] /\
  snd (run broken [] (import_stl cfg parameters))
  = inl (failure (Error "Error"
                    "Onshape API Error 500: Internal Server Error")).
Proof. split; vm_compute; reflexivity. Qed.

Lemma import_stl_rejects_empty_stl_witness :
  validate (JObj [("stl", JStr ""); ("filename", JStr "a.stl")]) = None /\
  exists r,
    run happy [] (call_tool cfg (JObj [("stl", JStr "");
                                       ("filename", JStr "a.stl")]))
    = ([], inl r) /\ is_error r.
Proof.
  exact (import_stl_rejects_empty_stl happy cfg
           [("stl", JStr ""); ("filename", JStr "a.stl")] eq_refl).
Defined.

Lemma import_stl_defaults_witness :
  exists o1 o2 rest,
    fst (run happy [] (import_stl cfg parameters))
    = (create_request cfg "AI Model 2024-11-02T10:40:00.123Z", o1)
      :: (upload_request cfg "d1" "w1" "model.stl" "model.stl"
            (stl parameters), o2)
      :: rest /\
    body (upload_request cfg "d1" "w1" "model.stl" "model.stl"
            (stl parameters))
    = Multipart [ {| field := "file"; data := stl parameters;
                     part_filename := "model.stl";
                     part_contentType := "application/octet-stream" |} ].
Proof.
  destruct (import_stl_defaults happy cfg parameters)
    as ((name & o1 & rest & Htr & _ & Hname) & _ & Hupload).
  destruct (Hupload document "d1" "w1" "model.stl"
              accepting_yields_document eq_refl eq_refl eq_refl)
    as (o2 & Hsecond & Hbody & Hfile).
  cbn [documentName parameters] in Hname.
  cbn [filename parameters] in Hfile.
  rewrite Hfile in Hsecond, Hbody. rewrite Htr in Hsecond.
  destruct rest as [|x rest]; [discriminate|].
  cbn [nth_error] in Hsecond. injection Hsecond as ->.
  exists o1, o2, rest. split; [|exact Hbody].
  rewrite Htr, Hname. reflexivity.
Defined.

Lemma accepting_succeeds_document : succeeds (respond 200 document_json).
Proof. exists document. exact accepting_yields_document. Defined.

Lemma accepting_succeeds_blob : succeeds (respond 200 blob_json).
Proof. exists blob. exact accepting_yields_blob. Defined.

Lemma accepting_succeeds_import : succeeds (respond 200 "{}").
Proof.
  exists (JObj []), {| status := 200; body_text := inl "{}" |}, "{}".
  repeat split.
Defined.

Lemma happy_exchanges :
  fst (run happy [] (import_stl cfg parameters)) =
  [ (create_request cfg (document_name happy parameters),
     respond 200 document_json);
    (upload_request cfg "d1" "w1" "model.stl" "model.stl" (stl parameters),
     respond 200 blob_json);
    (import_request cfg "d1" "w1" (JStr "b1") false, respond 200 "{}") ].
Proof. vm_compute. reflexivity. Defined.

Lemma import_stl_confirms_witness :
  exists r m,
    snd (run happy [] (import_stl cfg parameters)) = inl r /\
    isError r = None /\ text_of r = Some m /\
    contains "https://cad.onshape.com/documents/d1" m.
Proof.
  destruct (import_stl_confirms happy cfg parameters
              (create_request cfg (document_name happy parameters),
               respond 200 document_json)
              (upload_request cfg "d1" "w1" "model.stl" "model.stl"
                 (stl parameters),
               respond 200 blob_json)
              (import_request cfg "d1" "w1" (JStr "b1") false,
               respond 200 "{}")
              happy_exchanges
              accepting_succeeds_document accepting_succeeds_blob
              accepting_succeeds_import)
    as (doc & d & r & m & Hdoc & Hd & Hr & He & Ht & _ & Hurl).
  apply decode_yields in Hdoc. injection Hdoc as <-.
  injection Hd as <-. exists r, m. auto.
Defined.

(** Three calls, each answered with status 200, the last one with the
    body [OK], which is not JSON: the result is an error. *)
Lemma import_stl_error_after_three_successes :
  exists e1 e2 e3 r,
    fst (run acknowledged [] (import_stl cfg parameters)) = [e1; e2; e3] /\
    Forall (fun e => exists res,
              snd e = inl res /\ res_ok res = true /\ status res = 200%N)
           [e1; e2; e3] /\
    snd (run acknowledged [] (import_stl cfg parameters)) = inl r /\
    isError r = Some true.
Proof.
  eexists _, _, _, _. split; [vm_compute; reflexivity|].
  split; [repeat constructor; eexists; repeat split|].
  split; [vm_compute; reflexivity|reflexivity].
Qed.

Lemma startup_credentials_witness :
  exists cfg runs,
    startup credentials = Ready cfg /\
    authHeader cfg = "Basic YWNjZXNzOnNlY3JldA==" /\
    main credentials [(happy, args)] = Served runs.
Proof.
  destruct (startup_credentials credentials [(happy, args)]) as [_ Hready].
  destruct (Hready "access" "secret" eq_refl eq_refl)
    as (cfg & runs & Hs & Hh & Hm & _); try discriminate.
  exists cfg, runs. rewrite Hh. auto.
Defined.

Lemma default_names_distinct_witness :
  "AI Model 2024-11-02T10:40:00.123Z" <> "AI Model 2024-11-02T10:40:00.124Z".
Proof.
  assert (V1 : valid_time (clock happy))
    by (unfold valid_time, happy, instant; cbn [clock]; lia).
  assert (V2 : valid_time (clock happy_later))
    by (unfold valid_time, happy_later, later; cbn [clock]; lia).
  assert (D : clock happy <> clock happy_later) by discriminate.
  destruct (default_names_distinct cfg happy happy_later
              parameters other_parameters eq_refl eq_refl V1 V2 D)
    as (_ & _ & _ & _ & _ & _ & Hne).
  exact Hne.
Defined.

(** Two invocations, of different models against different services,
    that read the same millisecond: both documents get the same name. *)
Lemma default_names_collide :
  parameters <> other_parameters /\
  documentName parameters = None /\
  documentName other_parameters = None /\
  hd_error (fst (run happy [] (import_stl cfg parameters)))
  = Some (create_request cfg "AI Model 2024-11-02T10:40:00.123Z",
          respond 200 document_json) /\
  hd_error (fst (run unauthorized [] (import_stl cfg other_parameters)))
  = Some (create_request cfg "AI Model 2024-11-02T10:40:00.123Z",
          respond 401 "Unauthorized").
Proof.
  split; [discriminate|]. split; [reflexivity|]. split; [reflexivity|].
  split; vm_compute; reflexivity.
Qed.

(** Both credential variables are set, the access key to the empty
    string: the process exits and no header is built. *)
Lemma startup_exits_on_empty_key :
  empty_access_key "ONSHAPE_ACCESS_KEY" <> None /\
  empty_access_key "ONSHAPE_SECRET_KEY" <> None /\
  startup empty_access_key = Exit 1 /\
  forall c, startup empty_access_key <> Ready c.
Proof.
  repeat split; discriminate.
Qed.

End ServerExamples.

(** * Properties of the setup script *)

Module SetupSpec.
Import JS Setup StringFacts.

Lemma assoc_set_prop_same {V} (k : string) (v : V) l :
  assoc k (set_prop k v l) = Some v.
Proof.
  induction l as [|[k' v'] l IH]; simpl.
  - now rewrite String.eqb_refl.
  - destruct (String.eqb k k') eqn:E; simpl; rewrite E; auto.
Qed.

Lemma assoc_set_prop_other {V} (k k' : string) (v : V) l :
  k' <> k -> assoc k' (set_prop k v l) = assoc k' l.
Proof.
  intros Hne. induction l as [|[k0 v0] l IH]; simpl.
  - apply String.eqb_neq in Hne. now rewrite Hne.
  - destruct (String.eqb k k0) eqn:E; simpl.
    + apply String.eqb_eq in E. subst k0.
      apply String.eqb_neq in Hne. now rewrite Hne.
    + now rewrite IH.
Qed.


Lemma set_prop_twice_same {V} (k : string) (v v' : V) l :
  set_prop k v (set_prop k v' l) = set_prop k v l.
Proof.
  induction l as [|[k0 v0] l IH]; simpl.
  - now rewrite String.eqb_refl.
  - destruct (String.eqb k k0) eqn:E; simpl; rewrite E; [reflexivity|].
    now rewrite IH.
Qed.

Section Update.
Context `{Builtins}.



(** A configuration that is an array is written back with the same
    elements; any other configuration makes the update fail, and nothing
    is written. *)
Lemma add_server_other entry config :
  match config with
  | JObj _ => True
  | JArr elems _ =>
      exists extra, add_server entry config = inl (JArr elems extra)
  | _ => exists e, add_server entry config = inr e
  end.
Proof.
  destruct config; try exact I; try (eexists; reflexivity).
  unfold add_server. cbn [get_member rbind ok].
  destruct (truthy (lookup "mcpServers" expando)) eqn:Ht; cbn [negb].
  - cbn [rbind ok get_member]. unfold lookup in *.
    destruct (assoc "mcpServers" expando) as [servers|]; [|discriminate].
    destruct servers; try discriminate; eexists; reflexivity.
  - cbn [set_member rbind ok get_member]. unfold lookup.
    rewrite assoc_set_prop_same. eexists; reflexivity.
Qed.

End Update.

(** *** The script as a whole *)

Section ScriptFacts.
Context `{Builtins}.

Lemma sbind_continue {A B} (m : script A) (f : A -> script B) st b st' :
  sbind m f st = (Continue b, st') ->
  exists a st1, m st = (Continue a, st1) /\ f a st1 = (Continue b, st').
Proof.
  unfold sbind. destruct (m st) as [[a| |] st1]; try discriminate. eauto.
Qed.

Lemma spliced_continue raw st s st' :
  spliced raw st = (Continue s, st') -> s = raw /\ st' = st.
Proof.
  unfold spliced, single_quoted.
  destruct (forallb _ _); [|discriminate].
  unfold ret. intros Heq. injection Heq as <- <-. auto.
Qed.

Lemma backup_is_not_config i :
  String.eqb (CLAUDE_CONFIG_FILE i) (backup_of i) = false.
Proof.
  apply String.eqb_neq. intros Heq. symmetry in Heq.
  unfold backup_of in Heq. simpl in Heq.
  now apply append_neq_self in Heq.
Qed.

(** When step 7 completes, it has copied the file as it found it to the
    backup, then written the update of that same content. *)
Lemma step7_completes i st st' :
  step7 i st = (Continue tt, st') ->
  exists content new_content,
    files (disk st) (CLAUDE_CONFIG_FILE i) = Some content /\
    update_config (PROJECT_DIRECTORY i) (FINAL_ACCESS_KEY i)
      (FINAL_SECRET_KEY i) content
    = inl new_content /\
    log st' =
    (log st ++ [CopyFile (CLAUDE_CONFIG_FILE i) (backup_of i);
                WriteFile (CLAUDE_CONFIG_FILE i) new_content])%list /\
    files (disk st') (backup_of i) = Some content /\
    files (disk st') (CLAUDE_CONFIG_FILE i) = Some new_content.
Proof.
  unfold step7. intros Hrun.
  apply sbind_continue in Hrun as ([] & st1 & Hcp & Hrun).
  apply sbind_continue in Hrun as (path & st2 & Hpath & Hrun).
  apply spliced_continue in Hpath as [-> ->].
  apply sbind_continue in Hrun as (project & st2 & Hproject & Hrun).
  apply spliced_continue in Hproject as [-> ->].
  apply sbind_continue in Hrun as (access & st2 & Haccess & Hrun).
  apply spliced_continue in Haccess as [-> ->].
  apply sbind_continue in Hrun as (secret & st2 & Hsecret & Hrun).
  apply spliced_continue in Hsecret as [-> ->].
  apply sbind_continue in Hrun as (content & st2 & Hread & Hrun).
  unfold read_file in Hread. injection Hread as <- <-.
  unfold cp in Hcp.
  destruct (files (disk st) (CLAUDE_CONFIG_FILE i)) as [content|] eqn:Hfile;
    [|discriminate].
  injection Hcp as <-. cbn [disk write_to files] in Hrun.
  rewrite backup_is_not_config, Hfile in Hrun.
  destruct (update_config _ _ _ content) as [new_content|e] eqn:Hup;
    [|discriminate].
  unfold write_file in Hrun. injection Hrun as <-.
  exists content, new_content. cbn [disk log write_to files].
  rewrite String.eqb_refl, String.eqb_sym, backup_is_not_config,
    String.eqb_refl, <- app_assoc.
  auto.
Qed.


(** Step 5 on an existing file whose check asks for a rewrite: the file
    is written, and nothing is copied. *)
Lemma step5_rewrites i st content new_content :
  files (disk st) (CLAUDE_CONFIG_FILE i) = Some content ->
  single_quoted (CLAUDE_CONFIG_FILE i) = Some (CLAUDE_CONFIG_FILE i) ->
  check_config content = inl (Some new_content) ->
  step5 i st =
  (Continue tt,
   {| disk := write_to (CLAUDE_CONFIG_FILE i) new_content (disk st);
      log := (log st ++ [WriteFile (CLAUDE_CONFIG_FILE i) new_content])%list |}).
Proof.
  intros Hfile Hplain Hcheck.
  unfold step5, sbind, read_file, spliced, ret. rewrite Hfile, Hplain.
  rewrite Hfile, Hcheck. reflexivity.
Qed.

(** The defect behind C8, in general: when the existing file needs the
    rewrite of step 5 and the script completes, the backup made in step 7
    holds the rewritten content, not the content the script found. *)
Lemma setup_backs_up_rewritten_file i fs st' content new_content :
  files (build_result i fs) (CLAUDE_CONFIG_FILE i) = Some content ->
  check_config content = inl (Some new_content) ->
  run_setup i fs = (Continue tt, st') ->
  exists before after,
    log st' =
    (before ++ [WriteFile (CLAUDE_CONFIG_FILE i) new_content;
                CopyFile (CLAUDE_CONFIG_FILE i) (backup_of i)] ++ after)%list /\
    Forall (fun op => exists dir, op = Mkdir dir) before /\
    files (disk st') (backup_of i) = Some new_content.
Proof.
  intros Hfile Hcheck. unfold run_setup, setup. intros Hrun.
  apply sbind_continue in Hrun as ([] & st1 & H1 & Hrun).
  apply sbind_continue in Hrun as ([] & st4 & H4 & Hrun).
  apply sbind_continue in Hrun as ([] & st5 & H5 & Hrun).
  apply sbind_continue in Hrun as ([] & st6 & H6 & Hrun).
  assert (E1 : st1 = {| disk := build_result i fs; log := [] |}).
  { unfold step1, sbind, npm_run_build, ret, exit in H1. cbn [disk log] in H1.
    destruct (_ =? _); [|discriminate]. now injection H1. }
  subst st1.
  assert (E4 : files (disk st4) = files (build_result i fs) /\
               Forall (fun op => exists dir, op = Mkdir dir) (log st4)).
  { unfold step4, sbind, is_dir, ret, mkdir_p in H4. cbn [disk log] in H4.
    destruct (dirs (build_result i fs) _); injection H4 as <-;
      cbn [disk log files make_dir]; split; auto.
    repeat constructor. eauto. }
  destruct E4 as [E4 Hmk].
  assert (E5 : st5 = {| disk := write_to (CLAUDE_CONFIG_FILE i) new_content
                                  (disk st4);
                        log := (log st4 ++ [WriteFile (CLAUDE_CONFIG_FILE i)
                                              new_content])%list |}).
  { assert (Hfile4 : files (disk st4) (CLAUDE_CONFIG_FILE i) = Some content)
      by now rewrite E4.
    assert (Hplain : single_quoted (CLAUDE_CONFIG_FILE i)
                     = Some (CLAUDE_CONFIG_FILE i)).
    { unfold step5, sbind, read_file, spliced in H5. rewrite Hfile4 in H5.
      unfold single_quoted in *.
      destruct (forallb _ _); [reflexivity|discriminate]. }
    rewrite (step5_rewrites i st4 content new_content Hfile4 Hplain Hcheck)
      in H5.
    now injection H5. }
  assert (E6 : st6 = st5).
  { unfold step6, sbind, read_p, ret, exit in H6.
    destruct (input_access_key i); [|discriminate].
    destruct (input_secret_key i); [|discriminate].
    destruct (_ && _); [|discriminate]. now injection H6. }
  subst st6.
  apply step7_completes in Hrun
    as (c & new' & Hc & _ & Hlog & Hbackup & _).
  subst st5. cbn [disk log write_to files] in *.
  rewrite String.eqb_refl in Hc. injection Hc as <-.
  exists (log st4), [WriteFile (CLAUDE_CONFIG_FILE i) new'].
  split; [|auto]. rewrite Hlog, <- !app_assoc. reflexivity.
Qed.

End ScriptFacts.

End SetupSpec.

Module SetupExamples.
Import JS Setup Scenario Reference SetupSpec.



(** C8, the script run on a machine whose configuration file holds [{}]:
    step 5 rewrites the file before any copy of it exists; the backup of
    step 7 is a copy of the rewritten file, not of the original. *)
Lemma setup_rewrites_before_backup :
  files machine config_file = Some "{}" /\
  fst (run_setup user machine) = Continue tt /\
  log (snd (run_setup user machine)) =
  [ WriteFile config_file
      (reference_stringify (Some 2%nat) (JObj [("mcpServers", JObj [])]));
    CopyFile config_file backup_file;
    WriteFile config_file
      (reference_stringify (Some 2%nat)
         (JObj [("mcpServers",
                 JObj [("onshape_mcp",
                        server_entry "/Users/u/VibeCAD" "access" "secret")])])) ] /\
  files (disk (snd (run_setup user machine))) backup_file
  = Some (reference_stringify (Some 2%nat) (JObj [("mcpServers", JObj [])])) /\
  files (disk (snd (run_setup user machine))) backup_file <> Some "{}".
Proof.
  split; [reflexivity|]. split; [vm_compute; reflexivity|].
  split; [vm_compute; reflexivity|]. split; [vm_compute; reflexivity|].
  vm_compute. discriminate.
Qed.

End SetupExamples.

(** * Further properties of the server *)

Module ServerMore.
Import JS Server Calls StringFacts ServerSpec.

Section Handler.
Context `{Builtins}.
Variable w : world.
Variable cfg : config.

Ltac next_decode :=
  match goal with
  | |- context [match decode ?o with _ => _ end] => destruct (decode o) eqn:?
  end.

Ltac walk :=
  unfold pipeline, upload_target;
  next_decode;
  [destruct (doc_id _) eqn:?; cbn [rbind];
   [destruct (workspace_id _) eqn:?; cbn [rbind];
    [destruct (encodeURIComponent _) eqn:?; cbn [rbind ok];
     [next_decode;
      [destruct (get_member _ "id") eqn:?; [next_decode|]|]|]|]|]|].

(** X1: every request the handler sends is a POST under the configured base
    URL with the authorization header and [Accept: application/json]; it
    declares [Content-Type: application/json] exactly when its body is
    JSON text, and leaves the content type of a multipart body to the
    form. *)
Theorem requests_well_formed p :
  Forall (fun e =>
            (exists path, url (fst e) = ONSHAPE_API_URL cfg ++ path) /\
            method (fst e) = "POST" /\
            assoc "Authorization" (headers (fst e)) = Some (authHeader cfg) /\
            assoc "Accept" (headers (fst e)) = Some "application/json" /\
            assoc "Content-Type" (headers (fst e)) =
            match body (fst e) with
            | Text _ => Some "application/json"
            | _ => None
            end)
         (fst (run w [] (import_stl cfg p))).
Proof.
  rewrite run_import_stl. cbn [fst]. walk;
    repeat constructor; cbn [fst url]; eexists; reflexivity.
Qed.

(** X2: the handler makes at least one call and at most three, and it makes
    a further call only after the one before succeeded: every exchange
    but the last is a success.  No call is repeated: the calls of one
    run go to different URLs. *)
Theorem calls_bounded p :
  (1 <= length (fst (run w [] (import_stl cfg p))) <= 3)%nat /\
  (forall i e,
     nth_error (fst (run w [] (import_stl cfg p))) i = Some e ->
     (S i < length (fst (run w [] (import_stl cfg p))))%nat ->
     succeeds (snd e)) /\
  NoDup (map (fun e => url (fst e)) (fst (run w [] (import_stl cfg p)))).
Proof.
  rewrite run_import_stl. cbn [fst]. walk; cbn [fst length];
    (split; [lia|]);
    (split;
     [intros i x Hi Hlt;
      destruct i as [|[|[|]]]; cbn [length] in Hlt; try lia;
      injection Hi as <-; cbn [snd]; apply succeeds_decode; eauto
     |cbn [map fst url create_request upload_request import_request];
      repeat (apply NoDup_cons;
              [cbn [In]; intros Hin;
               repeat (destruct Hin as [Hin|Hin];
                       [apply append_cancel_l in Hin; discriminate Hin|]);
               exact Hin|]);
      apply NoDup_nil]).
Qed.

(** X3: a transport failure: when [fetch] rejects, no further call is made
    and the result is an error whose text is the prefix of the handler
    followed by the message of the rejection. *)
Theorem transport_failure_reported p i req e :
  nth_error (fst (run w [] (import_stl cfg p))) i = Some (req, inr e) ->
  length (fst (run w [] (import_stl cfg p))) = S i /\
  exists r,
    snd (run w [] (import_stl cfg p)) = inl r /\
    isError r = Some true /\
    text_of r = Some ("❌ Error importing STL: " ++ message e).
Proof.
  intros Hi.
  destruct (failed_call_ends_run w cfg p i req (inr e) e Hi eq_refl)
    as [Hlen Hr].
  split; [exact Hlen|]. exists (failure e). auto.
Qed.

(** X4: a success status with a body that is not JSON: the call counts as
    failed; no further call is made and the result is an error carrying
    the parser's message, not the status. *)
Theorem unparsable_body_reported p i req res c txt e :
  nth_error (fst (run w [] (import_stl cfg p))) i = Some (req, inl res) ->
  res_ok res = true ->
  body_text res = inl (String c txt) ->
  JSON_parse (String c txt) = inr e ->
  length (fst (run w [] (import_stl cfg p))) = S i /\
  exists r,
    snd (run w [] (import_stl cfg p)) = inl r /\
    isError r = Some true /\
    text_of r = Some ("❌ Error importing STL: " ++ message e).
Proof.
  intros Hi Hok Hbody Hparse.
  assert (Hd : decode (inl res) = inr e).
  { unfold decode, rbind. rewrite Hok, Hbody. exact Hparse. }
  destruct (failed_call_ends_run w cfg p i req (inl res) e Hi Hd)
    as [Hlen Hr].
  split; [exact Hlen|]. exists (failure e). auto.
Qed.

(** X5: a created document without a default workspace (so also a success
    answer with an empty body, read as the empty object): the run stops
    after the create call, with the type error of reading [id] of
    [undefined]. *)
Theorem missing_workspace_stops p props d :
  yields (service w [] (create_request cfg (document_name w p))) (JObj props) ->
  doc_id (JObj props) = inl d ->
  assoc "defaultWorkspace" props = None ->
  length (fst (run w [] (import_stl cfg p))) = 1%nat /\
  snd (run w [] (import_stl cfg p)) =
  inl (failure (TypeError
                  "Cannot read properties of undefined (reading 'id')")).
Proof.
  intros Hdoc Hd Hws. apply decode_yields in Hdoc.
  rewrite run_import_stl. cbn [fst snd]. unfold pipeline, upload_target.
  rewrite Hdoc, Hd. cbn [rbind].
  unfold workspace_id, get_member, lookup. rewrite Hws. cbn [rbind].
  split; reflexivity.
Qed.

(** X6: the handler does not check that the created document has an id: when
    the answer has a workspace but no [id], the upload is still sent, to
    the document named "undefined". *)
Theorem missing_id_not_checked p props ws f :
  yields (service w [] (create_request cfg (document_name w p))) (JObj props) ->
  assoc "id" props = None ->
  workspace_id (JObj props) = inl ws ->
  encodeURIComponent (file_name p) = inl f ->
  exists o1 o2 rest,
    fst (run w [] (import_stl cfg p)) =
    (create_request cfg (document_name w p), o1)
    :: (upload_request cfg "undefined" ws f (file_name p) (stl p), o2)
    :: rest.
Proof.
  intros Hdoc Hid Hws Hf. apply decode_yields in Hdoc.
  rewrite run_import_stl. cbn [fst]. unfold pipeline, upload_target.
  rewrite Hdoc.
  assert (Hd : doc_id (JObj props) = inl "undefined").
  { unfold doc_id, get_member, lookup. rewrite Hid. reflexivity. }
  rewrite Hd, Hws, Hf. cbn [rbind ok].
  next_decode; [destruct (get_member _ "id"); [next_decode|]|];
    eexists _, _, _; reflexivity.
Qed.

End Handler.

(** X7: the clock is read only to name a document the caller left unnamed:
    with a document name given (even the empty one, which is kept), the
    run is the same whatever the time. *)
Theorem named_document_ignores_clock `{Builtins} cfg p name t t' s :
  documentName p = Some name ->
  run {| clock := t; service := s |} [] (import_stl cfg p) =
  run {| clock := t'; service := s |} [] (import_stl cfg p) /\
  exists o rest,
    fst (run {| clock := t; service := s |} [] (import_stl cfg p))
    = (create_request cfg name, o) :: rest.
Proof.
  intros Hname. rewrite !run_import_stl.
  assert (E : forall c, pipeline cfg {| clock := c; service := s |} p
                        = pipeline cfg {| clock := t; service := s |} p).
  { intros c. unfold pipeline, document_name. rewrite Hname. reflexivity. }
  rewrite (E t'). split; [reflexivity|].
  destruct (first_call {| clock := t; service := s |} cfg p)
    as (o & rest & Hfirst).
  rewrite run_import_stl in Hfirst. cbn [fst] in *.
  unfold document_name in Hfirst. rewrite Hname in Hfirst. eauto.
Qed.

(** X8: the schema accepts exactly the objects whose [stl] is a non-empty
    string and whose optional properties, when present, have their
    declared type; the parameters handed to the handler are the values
    given, and any other property is ignored. *)
Theorem validate_accepts args p :
  validate args = Some p <->
  exists props,
    args = JObj props /\
    assoc "stl" props = Some (JStr (stl p)) /\ stl p <> "" /\
    match documentName p with
    | Some name => assoc "documentName" props = Some (JStr name)
    | None => assoc "documentName" props = None \/
              assoc "documentName" props = Some JUndefined
    end /\
    match filename p with
    | Some name => assoc "filename" props = Some (JStr name)
    | None => assoc "filename" props = None \/
              assoc "filename" props = Some JUndefined
    end /\
    match createNewPartStudio p with
    | Some b => assoc "createNewPartStudio" props = Some (JBool b)
    | None => assoc "createNewPartStudio" props = None \/
              assoc "createNewPartStudio" props = Some JUndefined
    end.
Proof.
  split.
  - unfold validate. destruct args as [| | | | | |props]; try discriminate.
    intros Hv. exists props. split; [reflexivity|].
    destruct (assoc "stl" props) as [[| | | |[|c s]| |]|]; try discriminate.
    cbn [string_min_1] in Hv.
    destruct (assoc "documentName" props) as [[| | | |name| |]|];
      try discriminate;
      destruct (assoc "filename" props) as [[| | | |file| |]|];
      try discriminate;
      destruct (assoc "createNewPartStudio" props) as [[| |b| | | |]|];
      try discriminate;
      cbn in Hv; injection Hv as <-; cbn;
      repeat split; auto; discriminate.
  - intros (props & -> & Hstl & Hne & Hname & Hfile & Hflag).
    destruct p as [s name file flag]. cbn in *.
    unfold validate. rewrite Hstl.
    destruct s as [|c s]; [congruence|]. cbn [string_min_1].
    assert (En : optional_string (assoc "documentName" props) = Some name).
    { destruct name; [now rewrite Hname|]. now destruct Hname as [-> | ->]. }
    assert (Ef : optional_string (assoc "filename" props) = Some file).
    { destruct file; [now rewrite Hfile|]. now destruct Hfile as [-> | ->]. }
    assert (Eb : optional_boolean (assoc "createNewPartStudio" props)
                 = Some flag).
    { destruct flag; [now rewrite Hflag|]. now destruct Hflag as [-> | ->]. }
    rewrite En, Ef, Eb. reflexivity.
Qed.

Section Process.
Context `{Builtins}.

Lemma pipeline_under_base cfg w p :
  Forall (fun e => exists path, url (fst e) = ONSHAPE_API_URL cfg ++ path)
         (fst (pipeline cfg w p)).
Proof.
  unfold pipeline, upload_target.
  destruct (decode _); [|repeat constructor; eexists; reflexivity].
  destruct (doc_id _); cbn [rbind];
    [|repeat constructor; eexists; reflexivity].
  destruct (workspace_id _); cbn [rbind];
    [|repeat constructor; eexists; reflexivity].
  destruct (encodeURIComponent _); cbn [rbind ok];
    [|repeat constructor; eexists; reflexivity].
  destruct (decode _); [|repeat constructor; eexists; reflexivity].
  destruct (get_member _ _); [|repeat constructor; eexists; reflexivity].
  destruct (decode _); repeat constructor; eexists; reflexivity.
Qed.

(** X9: a process that serves sends every request of every invocation under
    the base URL of the environment variable [ONSHAPE_API_URL], or under
    [https://cad.onshape.com/api/v6] when that variable is unset or
    empty. *)
Theorem served_requests_use_environment_url env invocations runs :
  main env invocations = Served runs ->
  let base :=
    match env "ONSHAPE_API_URL" with
    | None | Some "" => "https://cad.onshape.com/api/v6"
    | Some given => given
    end in
  Forall (fun r =>
            Forall (fun e => exists path, url (fst e) = base ++ path) (fst r))
         runs.
Proof.
  intros Hmain base. unfold main, startup in Hmain.
  destruct (falsy _ || falsy _); [discriminate|].
  injection Hmain as <-.
  apply Forall_map, Forall_forall. intros [w args] _. cbn [fst snd].
  rewrite run_call_tool. destruct (validate args) as [p|]; [|constructor].
  cbn [fst].
  match goal with
  | |- Forall _ (fst (pipeline ?c w p)) =>
      pose proof (pipeline_under_base c w p) as Hp
  end.
  cbn [ONSHAPE_API_URL] in Hp.
  replace base with
    (or_default (env "ONSHAPE_API_URL") "https://cad.onshape.com/api/v6").
  - exact Hp.
  - subst base. unfold or_default.
    destruct (env "ONSHAPE_API_URL") as [[|c s]|]; reflexivity.
Qed.

(** X20: an optional argument of the wrong type is not taken as absent:
    a [documentName] or [filename] that is present and neither a string
    nor [undefined] (so also [null]), or a [createNewPartStudio] that is
    neither a boolean nor [undefined], makes the call fail without any
    request. *)
Theorem mistyped_option_rejected w cfg props key v :
  assoc key props = Some v ->
  v <> JUndefined ->
  (key = "documentName" \/ key = "filename") /\ (forall s, v <> JStr s) \/
  key = "createNewPartStudio" /\ (forall b, v <> JBool b) ->
  run w [] (call_tool cfg (JObj props)) = ([], inl InvalidParams).
Proof.
  intros Hv Hu Hkey. rewrite run_call_tool.
  assert (E : validate (JObj props) = None); [|now rewrite E].
  unfold validate.
  destruct (string_min_1 _); [|reflexivity].
  destruct Hkey as [[[-> | ->] Hs] | [-> Hb]]; rewrite Hv.
  - destruct v; try reflexivity; [congruence|now destruct (Hs s0)].
  - destruct (optional_string (assoc "documentName" props)); [|reflexivity].
    destruct v; try reflexivity; [congruence|now destruct (Hs s0)].
  - destruct (optional_string _); [|reflexivity].
    destruct (optional_string _); [|reflexivity].
    destruct v; try reflexivity; [congruence|now destruct (Hb b)].
Qed.

End Process.

End ServerMore.

(** * Further properties of the setup script *)

Module SetupMore.
Import JS Setup Cases StringFacts SetupSpec.

(** *** [mask_key] *)

Lemma substring_all s : String.substring 0 (String.length s) s = s.
Proof. induction s as [|c s IH]; simpl; [reflexivity|now rewrite IH]. Qed.

Lemma substring_split n s :
  (n <= String.length s)%nat ->
  s = String.substring 0 n s ++ String.substring n (String.length s - n) s.
Proof.
  revert s. induction n as [|n IH]; intros s Hn.
  - rewrite Nat.sub_0_r, substring_all. now destruct s.
  - destruct s as [|c s]; simpl in *; [lia|].
    rewrite <- IH by lia. reflexivity.
Qed.

Lemma length_substring n m s :
  (n + m <= String.length s)%nat ->
  String.length (String.substring n m s) = m.
Proof.
  revert m s. induction n as [|n IH]; intros m s Hn.
  - revert s Hn. induction m as [|m IHm]; intros s Hn.
    + now destruct s.
    + destruct s as [|c s]; simpl in *; [lia|]. rewrite IHm; lia.
  - destruct s as [|c s]; simpl in *; [lia|]. apply IH. lia.
Qed.

Lemma substring_add n a b s :
  String.substring n (a + b) s
  = String.substring n a s ++ String.substring (n + a) b s.
Proof.
  revert a s. induction n as [|n IH]; intros a s.
  - revert s. induction a as [|a IHa]; intros s.
    + now destruct s.
    + destruct s as [|c s]; simpl; [reflexivity|].
      now rewrite IHa.
  - destruct s as [|c s]; simpl; [reflexivity|]. apply IH.
Qed.

Lemma command_substitution_cons c s :
  c <> "010"%char \/ command_substitution s <> "" ->
  command_substitution (String c s) = String c (command_substitution s).
Proof.
  intros Hc. cbn [command_substitution].
  destruct (command_substitution s); [|reflexivity].
  destruct Hc as [Hc|Hc]; [|congruence].
  apply Ascii.eqb_neq in Hc. now rewrite Hc.
Qed.

Lemma command_substitution_app a b :
  command_substitution b <> "" ->
  command_substitution (a ++ b) = a ++ command_substitution b.
Proof.
  intros Hb. induction a as [|c a IH]; [reflexivity|].
  cbn [append]. rewrite command_substitution_cons, IH; [reflexivity|].
  right. rewrite IH. destruct a; [exact Hb|discriminate].
Qed.

Lemma command_substitution_dots a b :
  command_substitution (a ++ "..." ++ b) = a ++ "..." ++ command_substitution b.
Proof.
  assert (E : command_substitution ("..." ++ b)
              = "..." ++ command_substitution b).
  { cbn [append].
    rewrite !command_substitution_cons by (left; discriminate).
    reflexivity. }
  rewrite command_substitution_app; rewrite E; [reflexivity|discriminate].
Qed.

Lemma command_substitution_echo s :
  command_substitution (echo s) = command_substitution s.
Proof.
  unfold echo. induction s as [|c s IH]; [reflexivity|].
  cbn [append command_substitution]. now rewrite IH.
Qed.

Lemma command_substitution_same s :
  ends_in_line_feed s = false -> command_substitution s = s.
Proof.
  induction s as [|c s IH]; [reflexivity|]. intros He.
  destruct s as [|c' s].
  - cbn in *. now rewrite He.
  - rewrite command_substitution_cons; rewrite IH by exact He;
      [reflexivity|right; discriminate].
Qed.

Lemma ends_in_line_feed_app a b :
  b <> "" -> ends_in_line_feed (a ++ b) = ends_in_line_feed b.
Proof.
  intros Hb. induction a as [|c a IH]; [reflexivity|].
  cbn [append]. rewrite <- IH.
  destruct (a ++ b) eqn:E; [|reflexivity].
  destruct a; [cbn in E; congruence|discriminate].
Qed.

(** X10: what the prompt shows of a key of ASCII characters: nothing of
    the empty key; of a key of one to eight characters its first two
    characters (the whole key when it has one or two) followed by three
    dots; of a longer key its first four characters, three dots, and its
    last four characters less the line feeds that end them (all four,
    when the key does not end in a line feed), with at least one
    character left out. *)
Theorem mask_key_shape key :
  ascii_key key = true ->
  (key = "" -> command_substitution (mask_key key) = "") /\
  ((1 <= String.length key <= 8)%nat ->
   exists head rest,
     key = head ++ rest /\
     String.length head = Nat.min 2 (String.length key) /\
     command_substitution (mask_key key) = head ++ "...") /\
  ((8 < String.length key)%nat ->
   exists head middle tail,
     key = head ++ middle ++ tail /\
     String.length head = 4%nat /\ String.length tail = 4%nat /\
     middle <> "" /\
     command_substitution (mask_key key)
     = head ++ "..." ++ command_substitution tail /\
     (ends_in_line_feed key = false ->
      command_substitution (mask_key key) = head ++ "..." ++ tail)).
Proof.
  intros _. split; [intros ->; reflexivity|]. split.
  - intros Hlen. unfold mask_key.
    destruct key as [|c key]; [simpl in Hlen; lia|]. cbn [non_empty andb].
    destruct (Nat.ltb_spec 8 (String.length (String c key))); [lia|].
    rewrite command_substitution_echo.
    rewrite (command_substitution_dots _ "").
    destruct key as [|c' key].
    + exists (String c ""), "". repeat split.
    + exists (String c (String c' "")), key.
      repeat split; destruct key; reflexivity.
  - intros Hlen. unfold mask_key.
    destruct key as [|c key]; [simpl in Hlen; lia|]. cbn [non_empty andb].
    destruct (Nat.ltb_spec 8 (String.length (String c key))); [|lia].
    set (k := String c key) in *.
    rewrite command_substitution_echo, command_substitution_dots.
    assert (Hk : k = String.substring 0 4 k
                     ++ String.substring 4 (String.length k - 8) k
                     ++ String.substring (String.length k - 4) 4 k).
    { pose proof (substring_split 4 k ltac:(lia)) as E.
      pose proof (substring_add 4 (String.length k - 8) 4 k) as E2.
      replace (String.length k - 8 + 4)%nat
        with (String.length k - 4)%nat in E2 by lia.
      replace (4 + (String.length k - 8))%nat
        with (String.length k - 4)%nat in E2 by lia.
      rewrite <- E2. exact E. }
    assert (Ht : String.length (String.substring (String.length k - 4) 4 k)
                 = 4%nat) by (apply length_substring; lia).
    exists (String.substring 0 4 k),
           (String.substring 4 (String.length k - 8) k),
           (String.substring (String.length k - 4) 4 k).
    split; [exact Hk|].
    split; [apply length_substring; lia|].
    split; [exact Ht|].
    split.
    { intros Hmid. apply (f_equal String.length) in Hmid.
      rewrite length_substring in Hmid by lia.
      change (String.length "") with 0%nat in Hmid. lia. }
    split; [reflexivity|].
    intros He. rewrite command_substitution_same; [reflexivity|].
    rewrite Hk, !ends_in_line_feed_app in He; [exact He| |].
    + intros E. rewrite E in Ht. discriminate.
    + intros E. apply (f_equal String.length) in E.
      rewrite length_append, Ht in E. cbn in E. lia.
Qed.

(** *** The script, step by step *)

Section Steps.
Context `{Builtins}.

Lemma single_quoted_cases raw :
  single_quoted raw = Some raw \/ single_quoted raw = None.
Proof. unfold single_quoted. destruct (forallb _ _); auto. Qed.

Lemma step5_unfold i st :
  step5 i st =
  match files (disk st) (CLAUDE_CONFIG_FILE i) with
  | None =>
      (Continue tt,
       {| disk := write_to (CLAUDE_CONFIG_FILE i) empty_config (disk st);
          log := (log st ++ [WriteFile (CLAUDE_CONFIG_FILE i) empty_config])%list |})
  | Some content =>
      match single_quoted (CLAUDE_CONFIG_FILE i) with
      | None => (Unmodelled, st)
      | Some _ =>
          match check_config content with
          | inl (Some new_content) =>
              (Continue tt,
               {| disk := write_to (CLAUDE_CONFIG_FILE i) new_content (disk st);
                  log := (log st ++ [WriteFile (CLAUDE_CONFIG_FILE i)
                                       new_content])%list |})
          | inl None => (Continue tt, st)
          | inr _ => (Exits 1, st)
          end
      end
  end.
Proof.
  unfold step5, sbind, read_file, spliced, ret, unmodelled, exit, write_file.
  destruct (files (disk st) (CLAUDE_CONFIG_FILE i)) as [content|] eqn:Hfile;
    [|reflexivity].
  destruct (single_quoted_cases (CLAUDE_CONFIG_FILE i)) as [-> | ->];
    [|reflexivity].
  rewrite Hfile. destruct (check_config content) as [[new_content|]|e];
    reflexivity.
Qed.


Lemma setup_unfold i fs :
  run_setup i fs =
  let built := build_result i fs in
  if build_status i =? 0 then
    let st4 :=
      if dirs built (CLAUDE_CONFIG_DIR i) then {| disk := built; log := [] |}
      else {| disk := make_dir (CLAUDE_CONFIG_DIR i) built;
              log := [Mkdir (CLAUDE_CONFIG_DIR i)] |} in
    match step5 i st4 with
    | (Continue _, st5) =>
        match input_access_key i, input_secret_key i with
        | Some _, Some _ =>
            if non_empty (FINAL_ACCESS_KEY i) && non_empty (FINAL_SECRET_KEY i)
            then step7 i st5
            else (Exits 1, st5)
        | _, _ => (Exits 1, st5)
        end
    | (Exits code, st5) => (Exits code, st5)
    | (Unmodelled, st5) => (Unmodelled, st5)
    end
  else (Exits (build_status i), {| disk := built; log := [] |}).
Proof.
  cbv beta iota zeta delta [run_setup setup sbind step1 npm_run_build step4
                              step6 read_p is_dir mkdir_p ret exit disk log
                              app].
  destruct (build_status i =? 0); [|reflexivity].
  destruct (dirs (build_result i fs) (CLAUDE_CONFIG_DIR i));
    destruct (step5 i _) as [[[]| |] st5]; try reflexivity;
    destruct (input_access_key i); try reflexivity;
    destruct (input_secret_key i); try reflexivity;
    destruct (non_empty _ && non_empty _); reflexivity.
Qed.










(** X14: an existing configuration file that the check of step 5 cannot
    read (it is not JSON, or it is the JSON [null]) stops the script
    with status 1; the script changes no file (the disk is as the build
    left it) and copies nothing. *)
Theorem damaged_config_untouched i fs content e :
  build_status i = 0 ->
  files (build_result i fs) (CLAUDE_CONFIG_FILE i) = Some content ->
  plain (CLAUDE_CONFIG_FILE i) ->
  check_config content = inr e ->
  exists st',
    run_setup i fs = (Exits 1, st') /\
    (forall path, files (disk st') path = files (build_result i fs) path) /\
    Forall is_mkdir (log st').
Proof.
  unfold plain. intros Hb Hfile Hplain Hcheck.
  rewrite setup_unfold, Hb. cbn [Z.eqb]. cbv zeta.
  destruct (dirs (build_result i fs) (CLAUDE_CONFIG_DIR i));
    rewrite step5_unfold;
    cbn [disk log files make_dir]; rewrite Hfile, Hplain, Hcheck;
    eexists; (split; [reflexivity|]); cbn [disk log files make_dir];
    (split; [reflexivity|]); repeat constructor.
  eexists; reflexivity.
Qed.


(** X19: the check of step 5 on a configuration that is an object:
    with a truthy [mcpServers] it writes nothing; otherwise it writes the
    object back with [mcpServers] set to the empty object and every
    other key as it was. *)
Theorem check_config_adds_only_mcpServers content props :
  JSON_parse content = inl (JObj props) ->
  (truthy (lookup "mcpServers" props) = true ->
   check_config content = inl None) /\
  (truthy (lookup "mcpServers" props) = false ->
   exists props',
     check_config content
     = inl (Some (JSON_stringify (Some 2%nat) (JObj props'))) /\
     assoc "mcpServers" props' = Some (JObj []) /\
     forall k, k <> "mcpServers" -> assoc k props' = assoc k props).
Proof.
  intros Hparse. unfold check_config. rewrite Hparse.
  cbn [rbind get_member ok]. split; intros Ht; rewrite Ht; cbn [negb].
  - reflexivity.
  - cbn [set_member rbind ok]. eexists. split; [reflexivity|].
    split; [apply assoc_set_prop_same|].
    intros k Hk. now apply assoc_set_prop_other.
Qed.


(** What [add_server] does to the properties that hold [mcpServers]:
    those of an object, or the non-index properties of an array. *)
Lemma registering_again entry l :
  let l1 :=
    if negb (truthy (lookup "mcpServers" l))
    then set_prop "mcpServers" (JObj []) l else l in
  exists servers,
    set_member (lookup "mcpServers" l1) "onshape_mcp" entry = inl servers /\
    truthy servers = true /\
    set_member servers "onshape_mcp" entry = inl servers /\
    lookup "mcpServers" (set_prop "mcpServers" servers l1) = servers /\
    set_prop "mcpServers" servers (set_prop "mcpServers" servers l1)
    = set_prop "mcpServers" servers l1.
Proof.
  intros l1.
  assert (Ht : truthy (lookup "mcpServers" l1) = true).
  { subst l1. destruct (truthy (lookup "mcpServers" l)) eqn:E; cbn [negb].
    - exact E.
    - unfold lookup. now rewrite assoc_set_prop_same. }
  destruct (lookup "mcpServers" l1) as [| |b|n|str|elems extra|props];
    try discriminate; cbn [set_member ok];
    eexists; (split; [reflexivity|]); (split; [exact Ht || reflexivity|]);
    (split; [cbn [set_member ok]; rewrite ?set_prop_twice_same; reflexivity|]);
    (split; [unfold lookup; now rewrite assoc_set_prop_same
            |apply set_prop_twice_same]).
Qed.

(** X17: registering is idempotent: on the configuration that
    [add_server] produced, [add_server] with the same entry changes
    nothing, so a second run with the same keys rewrites the same
    configuration. *)
Theorem add_server_idempotent entry config config' :
  add_server entry config = inl config' ->
  add_server entry config' = inl config'.
Proof.
  unfold add_server.
  destruct config as [| |b|n|str|elems extra|props];
    cbn [get_member rbind ok throw truthy negb set_member];
    try discriminate.
  - destruct (registering_again entry extra)
      as (servers & Hset & Ht & Hagain & Hlook & Hsame).
    destruct (truthy (lookup "mcpServers" extra));
      cbn [negb set_member rbind ok get_member] in *;
      rewrite Hset; cbn [rbind set_member ok];
      intros Heq; injection Heq as <-;
      cbn [get_member rbind ok]; rewrite Hlook, Ht;
      cbn [negb rbind ok get_member]; rewrite Hlook, Hagain;
      cbn [rbind set_member ok]; now rewrite Hsame.
  - destruct (registering_again entry props)
      as (servers & Hset & Ht & Hagain & Hlook & Hsame).
    destruct (truthy (lookup "mcpServers" props));
      cbn [negb set_member rbind ok get_member] in *;
      rewrite Hset; cbn [rbind set_member ok];
      intros Heq; injection Heq as <-;
      cbn [get_member rbind ok]; rewrite Hlook, Ht;
      cbn [negb rbind ok get_member]; rewrite Hlook, Hagain;
      cbn [rbind set_member ok]; now rewrite Hsame.
Qed.


End Steps.

End SetupMore.

(** ** The further scenarios, run with the reference built-ins *)

Module MoreExamples.
Import JS Server Calls Scenario Cases Reference.
Import ServerSpec ServerMore SetupSpec SetupMore.

Lemma calls_bounded_witness :
  length (fst (run happy [] (import_stl cfg parameters))) = 3%nat /\
  succeeds (respond 200 document_json) /\
  NoDup [ "https://cad.onshape.com/api/v6/documents";
          "https://cad.onshape.com/api/v6/blobelements/d/d1/w/w1?encodedFilename=model.stl";
          "https://cad.onshape.com/api/v6/partstudios/d/d1/w/w1/import" ].
Proof.
  destruct (calls_bounded happy cfg parameters) as (_ & Hearlier & Hurls).
  split; [rewrite ServerExamples.happy_exchanges; reflexivity|]. split.
  - refine (Hearlier 0%nat (_, respond 200 document_json) _ _).
    + rewrite ServerExamples.happy_exchanges. reflexivity.
    + rewrite ServerExamples.happy_exchanges. cbn [length]. lia.
  - rewrite ServerExamples.happy_exchanges in Hurls. exact Hurls.
Defined.

Lemma offline_exchanges :
  nth_error (fst (run offline [] (import_stl cfg parameters))) 0
  = Some (create_request cfg (document_name offline parameters),
          inr unreachable_error).
Proof. vm_compute. reflexivity. Defined.

Lemma transport_failure_reported_witness :
  length (fst (run offline [] (import_stl cfg parameters))) = 1%nat /\
  exists r,
    snd (run offline [] (import_stl cfg parameters)) = inl r /\
    isError r = Some true /\
    text_of r =
    Some "❌ Error importing STL: request to https://cad.onshape.com/api/v6/documents failed, reason: connect ECONNREFUSED".
Proof.
  exact (transport_failure_reported offline cfg parameters 0 _ _
           offline_exchanges).
Defined.

Lemma garbled_exchanges :
  nth_error (fst (run garbled [] (import_stl cfg parameters))) 1
  = Some (upload_request cfg "d1" "w1" "model.stl" "model.stl"
            (stl parameters),
          inl {| status := 200;
                 body_text := inl "<html>Bad gateway</html>" |}).
Proof. vm_compute. reflexivity. Defined.

Lemma unparsable_body_reported_witness :
  length (fst (run garbled [] (import_stl cfg parameters))) = 2%nat /\
  exists r,
    snd (run garbled [] (import_stl cfg parameters)) = inl r /\
    isError r = Some true /\
    text_of r = Some "❌ Error importing STL: Unexpected token in JSON".
Proof.
  exact (unparsable_body_reported garbled cfg parameters 1 _
           {| status := 200; body_text := inl "<html>Bad gateway</html>" |}
           "<"%char "html>Bad gateway</html>"
           (SyntaxError "Unexpected token in JSON")
           garbled_exchanges eq_refl eq_refl eq_refl).
Defined.

Lemma silent_yields_empty_object : yields (respond 200 "") (JObj []).
Proof.
  exists {| status := 200; body_text := inl "" |}, "". repeat split.
Defined.

Lemma missing_workspace_stops_witness :
  length (fst (run mute [] (import_stl cfg parameters))) = 1%nat /\
  snd (run mute [] (import_stl cfg parameters)) =
  inl (failure (TypeError
                  "Cannot read properties of undefined (reading 'id')")).
Proof.
  exact (missing_workspace_stops mute cfg parameters [] "undefined"
           silent_yields_empty_object eq_refl eq_refl).
Defined.

Lemma forgetful_yields_anonymous :
  yields (respond 200 (reference_stringify None anonymous_document))
         anonymous_document.
Proof.
  eexists {| status := 200; body_text := inl _ |}, _. repeat split.
Defined.

Lemma missing_id_not_checked_witness :
  exists o1 o2 rest,
    fst (run nameless [] (import_stl cfg parameters)) =
    (create_request cfg (document_name nameless parameters), o1)
    :: (upload_request cfg "undefined" "w1" "model.stl" "model.stl"
          (stl parameters), o2)
    :: rest.
Proof.
  exact (missing_id_not_checked nameless cfg parameters _ "w1" "model.stl"
           forgetful_yields_anonymous eq_refl eq_refl eq_refl).
Defined.

Lemma named_document_ignores_clock_witness :
  run {| clock := 0; service := accepting |} [] (import_stl cfg named_parameters)
  = run {| clock := instant; service := accepting |} []
      (import_stl cfg named_parameters) /\
  exists o rest,
    fst (run {| clock := 0; service := accepting |} []
           (import_stl cfg named_parameters))
    = (create_request cfg "Bracket", o) :: rest.
Proof.
  exact (named_document_ignores_clock cfg named_parameters "Bracket"
           0 instant accepting eq_refl).
Defined.

Lemma validate_accepts_witness : validate named_args = Some named_parameters.
Proof.
  apply (validate_accepts named_args named_parameters).
  eexists. split; [reflexivity|]. repeat split. discriminate.
Defined.

Lemma served_requests_use_environment_url_witness :
  exists runs,
    main registered [(happy, args)] = Served runs /\
    Forall (fun r =>
              Forall (fun e => exists path,
                        url (fst e)
                        = "https://cad.onshape.com/api/v11" ++ path)
                     (fst r))
           runs.
Proof.
  eexists. split; [reflexivity|].
  exact (served_requests_use_environment_url registered [(happy, args)] _
           eq_refl).
Defined.

Lemma mistyped_option_rejected_witness :
  run happy []
    (call_tool cfg (JObj [("stl", JStr "solid t"); ("documentName", JNull)]))
  = ([], inl InvalidParams).
Proof.
  apply (mistyped_option_rejected happy cfg
           [("stl", JStr "solid t"); ("documentName", JNull)]
           "documentName" JNull eq_refl).
  - discriminate.
  - left. split; [left; reflexivity|discriminate].
Defined.

End MoreExamples.

Module SetupMoreExamples.
Import JS Setup Scenario Cases Reference SetupSpec SetupMore.

Lemma mask_key_shape_witness :
  command_substitution (mask_key "on_0123456789abcdefXYZW") = "on_0...XYZW" /\
  command_substitution (mask_key "secret") = "se...".
Proof.
  destruct (mask_key_shape "on_0123456789abcdefXYZW" eq_refl)
    as (_ & _ & Hlong).
  destruct Hlong as (head & middle & tail & Hkey & Hh & Ht & _ & Hmask & _);
    [cbn [String.length]; lia|].
  destruct (mask_key_shape "secret" eq_refl) as (_ & Hshort & _).
  destruct Hshort as (head' & rest & Hkey' & Hh' & Hmask');
    [cbn [String.length]; lia|].
  split; reflexivity.
Defined.

(** Line feeds at the end of a key are lost in the command
    substitution; an eight-character key is still a short one. *)
Example masked_keys :
  command_substitution (mask_key ("abcdefghi" ++ Setup.nl ++ Setup.nl))
  = "abcd...hi" /\
  command_substitution (mask_key ("a" ++ Setup.nl)) = "a" ++ Setup.nl ++ "..." /\
  command_substitution (mask_key "12345678") = "12..." /\
  command_substitution (mask_key "123456789") = "1234...6789".
Proof. repeat split. Qed.

(** The end of the input at the first prompt ends the script with
    status 1, after step 5 and before any backup. *)
Example setup_stops_at_end_of_input :
  run_setup {| build_status := 0; build_result := compile;
               pwd := "/Users/u/VibeCAD"; HOME := "/Users/u";
               ONSHAPE_ACCESS_KEY := "access"; ONSHAPE_SECRET_KEY := "secret";
               input_access_key := None; input_secret_key := None;
               backup_stamp := "20241102_104000" |}
            blank_machine
  = (Exits 1,
     {| disk := write_to config_file empty_config
                  (make_dir "/Users/u/Library/Application Support/Claude"
                     (compile blank_machine));
        log := [Mkdir "/Users/u/Library/Application Support/Claude";
                WriteFile config_file empty_config] |}).
Proof. reflexivity. Qed.






Lemma damaged_config_rejected :
  check_config "{" = inr (SyntaxError "Unexpected token in JSON").
Proof. vm_compute. reflexivity. Defined.

Lemma damaged_config_untouched_witness :
  exists st',
    run_setup user damaged_machine = (Exits 1, st') /\
    (forall path,
       files (disk st') path = files (compile damaged_machine) path) /\
    Forall is_mkdir (log st').
Proof.
  exact (damaged_config_untouched user damaged_machine "{" _
           eq_refl eq_refl eq_refl damaged_config_rejected).
Defined.






Lemma existing_config_registered :
  add_server (server_entry "/Users/u/VibeCAD" "access" "secret")
    existing_config
  = inl (JObj [("theme", JStr "dark");
               ("mcpServers",
                JObj [("files", JObj [("command", JStr "npx")]);
                      ("onshape_mcp",
                       server_entry "/Users/u/VibeCAD" "access" "secret")])]).
Proof. reflexivity. Defined.

Lemma add_server_idempotent_witness :
  add_server (server_entry "/Users/u/VibeCAD" "access" "secret")
    (JObj [("theme", JStr "dark");
           ("mcpServers",
            JObj [("files", JObj [("command", JStr "npx")]);
                  ("onshape_mcp",
                   server_entry "/Users/u/VibeCAD" "access" "secret")])])
  = inl (JObj [("theme", JStr "dark");
               ("mcpServers",
                JObj [("files", JObj [("command", JStr "npx")]);
                      ("onshape_mcp",
                       server_entry "/Users/u/VibeCAD" "access" "secret")])]).
Proof.
  exact (add_server_idempotent _ _ _ existing_config_registered).
Defined.




Lemma empty_object_parses : JSON_parse "{}" = inl (JObj []).
Proof. vm_compute. reflexivity. Defined.

Lemma check_config_adds_only_mcpServers_witness :
  exists props',
    check_config "{}"
    = inl (Some (reference_stringify (Some 2%nat) (JObj props'))) /\
    assoc "mcpServers" props' = Some (JObj []).
Proof.
  destruct (check_config_adds_only_mcpServers "{}" [] empty_object_parses)
    as [_ Hmissing].
  destruct (Hmissing eq_refl) as (props' & Hcheck & Hservers & _).
  exists props'. split; [exact Hcheck|exact Hservers].
Defined.

End SetupMoreExamples.
